(** * dmdb_exporter: the result-to-metric translation engine and the probe
    target resolver of [main.go], embedded in Rocq.

    Go values are modelled as follows.
    - [string] is a byte string ([String.string]); the [strings] functions
      the program calls are modelled on ASCII text (Go additionally maps
      non-ASCII letters and trims non-ASCII white space).
    - A Go [map] is a [gmap]; the order in which [range] visits a map is not
      fixed by Go, so it is an explicit argument of the functions that
      range over one.
    - An [error] is where the value was made ([main.go] itself, or a
      library) and the text its [Error()] method returns.
    - A database handle answers every ping on its own: [scrape] pings
      twice, and the two answers are independent.
    - A function that can panic or end the process returns a [Res]; state
      (metrics sent on the channel, lines logged at error level, counters)
      is passed explicitly and survives a panic.
    - The database, the float parser and the checks of the metrics library
      are outside [main.go]; they are parameters. *)

From Stdlib Require Import ZArith Ascii String DecimalString.
From stdpp Require Import gmap strings list fin_maps.

Local Open Scope Z_scope.
Local Open Scope string_scope.
Local Open Scope list_scope.

(** ** The Go library functions [main.go] calls on strings *)

Module GoStrings.

Definition is_upper (c : ascii) : bool :=
  let n := N_of_ascii c in ((65 <=? n) && (n <=? 90))%N.

Definition lower_byte (c : ascii) : ascii :=
  if is_upper c then ascii_of_N (N_of_ascii c + 32) else c.

(** Whether every byte is below 0x80, as [strings.ToLower] tests it before
    it takes its byte-by-byte path. *)
Fixpoint isASCII (s : string) : bool :=
  match s with
  | EmptyString => true
  | String c r => (N_of_ascii c <? 128)%N && isASCII r
  end.

(** [strings.ToLower] on ASCII text ([isASCII]): byte by byte. On other
    text the library maps every Unicode letter and replaces invalid bytes,
    which may change the length; that part is not modelled, and a theorem
    that would depend on it takes [isASCII] as a hypothesis. *)
Fixpoint ToLower (s : string) : string :=
  match s with
  | EmptyString => EmptyString
  | String c r => String (lower_byte c) (ToLower r)
  end.

(** [strings.Replace(s, old, new, -1)] for a one-byte [old], the only way
    [cleanName] calls it. *)
Fixpoint Replace (s : string) (old : ascii) (new : string) : string :=
  match s with
  | EmptyString => EmptyString
  | String c r =>
      if Ascii.eqb c old then new +:+ Replace r old new
      else String c (Replace r old new)
  end.

(** White space as [strings.TrimSpace] sees it in ASCII:
    tab, line feed, vertical tab, form feed, carriage return, space. *)
Definition is_space (c : ascii) : bool :=
  let n := N_of_ascii c in (((9 <=? n) && (n <=? 13)) || (n =? 32))%N.

Fixpoint trim_left (s : string) : string :=
  match s with
  | EmptyString => EmptyString
  | String c r => if is_space c then trim_left r else s
  end.

(** Drops the trailing white space: a character is kept when it is not a
    space or something is kept after it. *)
Fixpoint trim_right (s : string) : string :=
  match s with
  | EmptyString => EmptyString
  | String c r =>
      match trim_right r with
      | EmptyString => if is_space c then EmptyString else String c EmptyString
      | r' => String c r'
      end
  end.

Definition TrimSpace (s : string) : string := trim_right (trim_left s).

(** [strings.Split(s, sep)] for a one-byte, non-empty [sep]: the result
    always has at least one element. *)
Fixpoint Split (s : string) (sep : ascii) : list string :=
  match s with
  | EmptyString => [EmptyString]
  | String c r =>
      if Ascii.eqb c sep then EmptyString :: Split r sep
      else match Split r sep with
           | [] => [String c EmptyString]
           | h :: t => String c h :: t
           end
  end.

Fixpoint HasPrefix (s p : string) : bool :=
  match p, s with
  | EmptyString, _ => true
  | String a p', String b s' => Ascii.eqb a b && HasPrefix s' p'
  | String _ _, EmptyString => false
  end.

(** [strings.Contains]. *)
Fixpoint Contains (s sub : string) : bool :=
  HasPrefix s sub ||
  match s with
  | EmptyString => false
  | String _ r => Contains r sub
  end.

Definition is_digit (c : ascii) : bool :=
  let n := N_of_ascii c in ((48 <=? n) && (n <=? 57))%N.

Definition digit_val (c : ascii) : Z := Z.of_N (N_of_ascii c) - 48.

(** The digit loop of [strconv.ParseUint] in base 10: [None] on a byte that
    is not a digit or once the value passes [max]. *)
Fixpoint parse_digits (max : Z) (s : string) (acc : Z) : option Z :=
  match s with
  | EmptyString => Some acc
  | String c r =>
      if is_digit c then
        let n := acc * 10 + digit_val c in
        if (n <=? max)%Z then parse_digits max r n else None
      else None
  end.

Definition maxUint64 : Z := 2 ^ 64 - 1.
Definition maxInt64 : Z := 2 ^ 63 - 1.

(** [strconv.ParseUint(s, 10, 64)]; [None] stands for its error. *)
Definition ParseUint (s : string) : option Z :=
  match s with
  | EmptyString => None
  | _ => parse_digits maxUint64 s 0
  end.

(** [strconv.Atoi] where [int] has 64 bits: an optional sign, then decimal
    digits, within the range of [int]. *)
Definition Atoi (s : string) : option Z :=
  match s with
  | EmptyString => None
  | String "+" r =>
      match r with
      | EmptyString => None
      | _ => parse_digits maxInt64 r 0
      end
  | String "-" r =>
      match r with
      | EmptyString => None
      | _ => Z.opp <$> parse_digits (maxInt64 + 1) r 0
      end
  | _ => parse_digits maxInt64 s 0
  end.

(** [%v] of an unsigned or signed integer: its decimal form. *)
Definition FormatInt (z : Z) : string := NilZero.string_of_int (Z.to_int z).

End GoStrings.
Export GoStrings.

(** ** Errors and results *)

(** An error value: where it was made, and the text its [Error()] gives.
    - [errors_New msg] is a value [main.go] makes itself, with
      [errors.New(msg)] or [fmt.Errorf].
    - [lib_error origin msg] is a value made outside [main.go], in the
      package [origin] (the driver, [database/sql], [context], the metrics
      library). It is never identical with a value [main.go] makes,
      whatever the two texts are.
    [main.go] declares no error type and no error variable. It compares an
    error with nil, compares [ctx.Err()] with [context.DeadlineExceeded],
    and reads the text of the error of a ping ([scrape], for a closed
    database); it looks at no other property of an error. *)
Inductive error : Type :=
| errors_New (msg : string)
| lib_error (origin msg : string).

Definition Error (e : error) : string :=
  match e with
  | errors_New m => m
  | lib_error _ m => m
  end.

(** The variable [context.DeadlineExceeded]. *)
Definition context_DeadlineExceeded : error :=
  lib_error "context" "context deadline exceeded".

#[global] Instance error_eq_dec : EqDecision error.
Proof. solve_decision. Defined.

(** How a call ends: it returns, it panics with a value, or the process
    exits ([log.Fatal]). *)
Inductive Res (A : Type) : Type :=
| Ok (a : A)
| Panic (e : error)
| Fatal.
Arguments Ok {A} a.
Arguments Panic {A} e.
Arguments Fatal {A}.

(** ** What the program takes from outside [main.go] *)

(** The Go runtime and the libraries the program calls, as far as the
    program depends on them and [main.go] does not fix them.
    - [ParseFloat s] is [strconv.ParseFloat(s, 64)], [None] for its error.
    - [Native] are the values a driver hands over besides nil, int64, bool,
      []byte and string (float64, time.Time, types of the driver), and
      [Sprint_native] is [fmt.Sprintf("%v", x)] on them.
    - [NewConstMetric_err fqName help variableLabels labelValues] is the
      error of [prometheus.NewConstMetric] for a descriptor of that name,
      help and label names and for those label values (an invalid name, a
      wrong number of label values, ...), [None] when the metric is built.
    - [range_map seed m] is the order in which one [range] over the map [m]
      visits its entries; Go leaves the order open and varies it from loop
      to loop, which [seed] stands for. *)
Class Platform : Type := {
  float64 : Type;
  ParseFloat : string -> option float64;
  Native : Type;
  Sprint_native : Native -> string;
  NewConstMetric_err : forall (fqName help : string) (variableLabels labelValues : list string),
    option error;
  range_map : nat -> gmap string string -> list (string * string);
  range_map_perm : forall seed m, range_map seed m ≡ₚ map_to_list m
}.

(** ** The part of the Prometheus client library the program uses *)

Module prometheus.

Inductive ValueType : Type := CounterValue | GaugeValue.

(** [prometheus.BuildFQName]. *)
Definition BuildFQName (namespace subsystem name : string) : string :=
  if decide (name = "") then ""
  else if decide (namespace <> "" /\ subsystem <> "") then
    namespace +:+ "_" +:+ subsystem +:+ "_" +:+ name
  else if decide (namespace <> "") then namespace +:+ "_" +:+ name
  else if decide (subsystem <> "") then subsystem +:+ "_" +:+ name
  else name.

(** [prometheus.NewDesc(fqName, help, variableLabels, nil)]. *)
Record Desc : Type := NewDesc {
  fqName : string;
  help : string;
  variableLabels : list string
}.

(** A metric built by [prometheus.MustNewConstMetric]. *)
Record ConstMetric `{Platform} : Type := mkConstMetric {
  desc : Desc;
  valType : ValueType;
  val : float64;
  labelValues : list string
}.

(** [prometheus.MustNewConstMetric]: it panics where [NewConstMetric]
    returns an error. *)
Definition MustNewConstMetric `{Platform} (d : Desc) (valueType : ValueType)
    (value : float64) (lvs : list string) : Res ConstMetric :=
  match NewConstMetric_err (fqName d) (help d) (variableLabels d) lvs with
  | Some e => Panic e
  | None => Ok (mkConstMetric _ d valueType value lvs)
  end.

End prometheus.
Export prometheus.

(** Metric name parts. *)
Definition namespace : string := "dmdb".

(** Metrics object description. *)
Record Metric : Type := {
  Context : string;
  Labels : list string;
  MetricsDesc : gmap string string;
  MetricsType : gmap string string;
  FieldToAppend : string;
  Request : string;
  IgnoreZeroResult : bool
}.

(** ** The database as the program sees it *)

(** A column value as [rows.Scan] stores it into an [interface{}]. *)
Inductive Value `{Platform} : Type :=
| VNil
| VInt64 (z : Z)
| VBool (b : bool)
| VBytes (bs : list ascii)
| VString (s : string)
| VNative (x : Native).

(** One turn of [for rows.Next()]: the row was scanned, or [rows.Scan]
    returned an error. *)
Inductive RowEvent `{Platform} : Type :=
| Scanned (columns : list Value)
| ScanFailed (e : error).

(** What [db.QueryContext(ctx, query)] gives back and what the program can
    observe of it afterwards.
    - [deadline_exceeded]: [ctx.Err() == context.DeadlineExceeded] when
      [QueryContext] has returned.
    - [query_err]: the error [QueryContext] returned.
    - [cols]: the names [rows.Columns()] returns.
    - [events]: the rows for which [rows.Next()] is true, in order.
    - [rows_err]: the error that made [rows.Next()] report false, if one
      did ([rows.Err()]). *)
Record QueryResult `{Platform} : Type := {
  deadline_exceeded : bool;
  query_err : option error;
  cols : list string;
  events : list RowEvent;
  rows_err : option error
}.

(** A database handle. Every call of [db.Ping()] has an answer of its own:
    [Ping d n] is the answer of the handle to a ping that comes after [n]
    earlier ones. [QueryContext] is a query run with a timeout of so many
    seconds. *)
Record DB `{Platform} : Type := {
  Ping : nat -> option error;
  QueryContext : Z -> string -> QueryResult
}.

(** The handle after it has answered one more ping. *)
Definition pinged `{Platform} (d : DB) : DB :=
  {| Ping := fun n => Ping d (S n); QueryContext := QueryContext d |}.

(** [sql.Open("dm", dsn)]. *)
Class Driver `{Platform} : Type := {
  sql_Open : string -> DB + error
}.

(** ** State *)

(** Lines the program logs at error level. *)
Inductive LogEvent : Type :=
| ErrUnableToConvert (metric metricHelp value : string)
| ErrNoRequest (metricsDesc : gmap string string)
| ErrNoMetricsDesc (request : string)
| ErrScraping (context : string) (metricsDesc : gmap string string) (err : error)
| ErrPinging (err : error)
| ErrConnecting (dsn : string).

(** What a scrape writes outside the exporter: the metrics sent on the
    channel [ch] so far, the error log, and the runtime's choice of the
    next map iteration order. *)
Record World `{Platform} : Type := mkWorld {
  ch : list ConstMetric;
  logs : list LogEvent;
  rng : nat
}.

Definition send `{Platform} (m : ConstMetric) (w : World) : World :=
  mkWorld _ (ch w ++ [m]) (logs w) (rng w).

Definition log_Errorln `{Platform} (l : LogEvent) (w : World) : World :=
  mkWorld _ (ch w) (logs w ++ [l]) (rng w).

Definition next_range `{Platform} (w : World) : World :=
  mkWorld _ (ch w) (logs w) (S (rng w)).

(** [int] arithmetic: 64 bits, two's complement. *)
Definition wrap_int (z : Z) : Z := (z + 2 ^ 63) mod 2 ^ 64 - 2 ^ 63.

(** ** [GetMetricType] *)

(** The local table [strToPromType]. *)
Definition strToPromType : gmap string ValueType :=
  {[ "gauge" := GaugeValue; "counter" := CounterValue ]}.

Definition GetMetricType (metricType : string) (metricsType : gmap string string)
  : Res ValueType :=
  match metricsType !! ToLower metricType with
  | None => Ok GaugeValue
  | Some strType =>
      match strToPromType !! ToLower strType with
      | None =>
          Panic (errors_New ("Error while getting prometheus type " +:+ ToLower strType))
      | Some valueType => Ok valueType
      end
  end.

(** ** [cleanName] *)

Definition cleanName (s : string) : string :=
  let s := Replace s " " "_" in
  let s := Replace s "(" "" in
  let s := Replace s ")" "" in
  let s := Replace s "/" "" in
  let s := Replace s "*" "" in
  ToLower s.

(** ** [ScrapeGenericValues] *)

(** [row[key]] on a [map[string]string]: the empty string for a missing key. *)
Definition row_get (row : gmap string string) (key : string) : string :=
  default "" (row !! key).

Section GenericParser.
Context `{Platform}.
Variables (context : string) (labels : list string)
  (metricsType : gmap string string) (fieldToAppend : string).
Variable row : gmap string string.

(** The descriptor and the label values of the metric for one value
    column: the two branches on [fieldToAppend]. *)
Definition metricDesc (metric metricHelp : string) : Desc * list string :=
  if decide (fieldToAppend = "") then
    (NewDesc (BuildFQName namespace context metric) metricHelp labels,
     (row_get row) <$> labels)
  else
    (NewDesc (BuildFQName namespace context (cleanName (row_get row fieldToAppend)))
       metricHelp [],
     []).

(** The loop [for metric, metricHelp := range metricsDesc] over the entries
    in the order [kvs]; the state is the world and [metricsCount]. *)
Fixpoint parseColumns (kvs : list (string * string)) (st : World * Z)
  : (World * Z) * Res (option error) :=
  match kvs with
  | [] => (st, Ok None)
  | (metric, metricHelp) :: rest =>
      match ParseFloat (TrimSpace (row_get row metric)) with
      | None =>
          parseColumns rest
            (log_Errorln (ErrUnableToConvert metric metricHelp (row_get row metric)) st.1,
             st.2)
      | Some value =>
          let '(d, lvs) := metricDesc metric metricHelp in
          match GetMetricType metric metricsType with
          | Panic e => (st, Panic e)
          | Fatal => (st, Fatal)
          | Ok valueType =>
              match MustNewConstMetric d valueType value lvs with
              | Panic e => (st, Panic e)
              | Fatal => (st, Fatal)
              | Ok m => parseColumns rest (send m st.1, wrap_int (st.2 + 1))
              end
          end
      end
  end.

End GenericParser.

(** The closure [genericParser]. *)
Definition genericParser `{Platform} (context : string) (labels : list string)
    (metricsDesc metricsType : gmap string string) (fieldToAppend : string)
    (row : gmap string string) (st : World * Z) : (World * Z) * Res (option error) :=
  parseColumns context labels metricsType fieldToAppend row
    (range_map (rng st.1) metricsDesc) (next_range st.1, st.2).

(** ** [GeneratePrometheusMetrics] *)

Definition join_space (l : list string) : string :=
  match l with
  | [] => ""
  | h :: t => fold_left (fun acc x => acc +:+ " " +:+ x) t h
  end.

(** [fmt.Sprintf("%v", v)]. *)
Definition Sprint `{Platform} (v : Value) : string :=
  match v with
  | VNil => "<nil>"
  | VInt64 z => FormatInt z
  | VBool true => "true"
  | VBool false => "false"
  | VBytes bs => "[" +:+ join_space ((fun c => FormatInt (Z.of_N (N_of_ascii c))) <$> bs) +:+ "]"
  | VString s => s
  | VNative x => Sprint_native x
  end.

(** The map built from one scanned row: [columns] has one slot per column
    name, nil until [Scan] fills it, and a later column of the same
    lower-cased name overwrites an earlier one. *)
Fixpoint rowMap `{Platform} (cols : list string) (i : nat) (columns : list Value)
    (m : gmap string string) : gmap string string :=
  match cols with
  | [] => m
  | colName :: rest =>
      rowMap rest (S i) columns
        (<[ToLower colName := Sprint (default VNil (columns !! i))]> m)
  end.

Definition normalize `{Platform} (cols : list string) (columns : list Value)
  : gmap string string := rowMap cols 0 columns ∅.

Section Generate.
Context `{Platform} {St : Type}.
Variable parse : gmap string string -> St -> St * Res (option error).
Variable cols : list string.

(** The loop [for rows.Next()]. When the events are used up the loop ends
    and the function returns nil. *)
Fixpoint scanRows (evs : list RowEvent) (s : St) : St * Res (option error) :=
  match evs with
  | [] => (s, Ok None)
  | ScanFailed e :: _ => (s, Ok (Some e))
  | Scanned columns :: rest =>
      match parse (normalize cols columns) s with
      | (s', Ok None) => scanRows rest s'
      | (s', r) => (s', r)
      end
  end.

End Generate.

Definition GeneratePrometheusMetrics `{Platform} {St : Type} (queryTimeout : string)
    (db : DB) (parse : gmap string string -> St -> St * Res (option error))
    (query : string) (s : St) : St * Res (option error) :=
  match Atoi queryTimeout with
  | None => (s, Fatal)
  | Some timeout =>
      let rows := QueryContext db timeout query in
      if deadline_exceeded rows then (s, Ok (Some (errors_New "DM query timed out")))
      else match query_err rows with
           | Some err => (s, Ok (Some err))
           | None => scanRows parse (cols rows) (events rows) s
           end
  end.

Definition ScrapeGenericValues `{Platform} (queryTimeout : string) (db : DB)
    (context : string) (labels : list string) (metricsDesc metricsType : gmap string string)
    (fieldToAppend : string) (ignoreZeroResult : bool) (request : string)
    (w : World) : World * Res (option error) :=
  let '((w', metricsCount), r) :=
    GeneratePrometheusMetrics queryTimeout db
      (genericParser context labels metricsDesc metricsType fieldToAppend)
      request (w, 0) in
  match r with
  | Ok (Some err) => (w', Ok (Some err))
  | Ok None =>
      if negb ignoreZeroResult && (metricsCount =? 0)%Z
      then (w', Ok (Some (errors_New "No metrics found while parsing")))
      else (w', Ok None)
  | Panic e => (w', Panic e)
  | Fatal => (w', Fatal)
  end.

(** Interface method to call [ScrapeGenericValues] using [Metric] struct values. *)
Definition ScrapeMetric `{Platform} (queryTimeout : string) (db : DB)
    (metricDefinition : Metric) (w : World) : World * Res (option error) :=
  ScrapeGenericValues queryTimeout db (Context metricDefinition) (Labels metricDefinition)
    (MetricsDesc metricDefinition) (MetricsType metricDefinition)
    (FieldToAppend metricDefinition) (IgnoreZeroResult metricDefinition)
    (Request metricDefinition) w.

(** ** The collector: the method [scrape] of [Exporter] *)

(** The exporter, without the duration gauge (it holds a time). The gauges
    [up] and [error] hold 0 or 1; [scrapeErrors] is the counter vector, one
    counter per value of its label [collector]. *)
Record Exporter `{Platform} : Type := mkExporter {
  dsn : string;
  db : DB;
  up : Z;
  error_gauge : Z;
  totalScrapes : nat;
  scrapeErrors : gmap string nat
}.

(** [e.scrapeErrors.WithLabelValues(context).Inc()]. *)
Definition inc_scrapeErrors `{Platform} (context : string) (e : Exporter) : Exporter :=
  mkExporter _ (dsn e) (db e) (up e) (error_gauge e) (totalScrapes e)
    (<[context := S (default 0%nat (scrapeErrors e !! context))]> (scrapeErrors e)).

(** What the goroutines of one scrape share: the exporter, the world and
    the variable [err] of [scrape], which every goroutine assigns. *)
Record Cycle `{Platform} : Type := mkCycle {
  exporter : Exporter;
  world : World;
  err : option error
}.

(** The two checks at the head of the goroutine: an empty [Request] and an
    empty [MetricsDesc] are each logged as an error, and the goroutine goes
    on. *)
Definition checkDefinition `{Platform} (metric : Metric) (w : World) : World :=
  let w1 :=
    if decide (Request metric = "")
    then log_Errorln (ErrNoRequest (MetricsDesc metric)) w else w in
  if decide (MetricsDesc metric = ∅)
  then log_Errorln (ErrNoMetricsDesc (Request metric)) w1 else w1.

(** The body of the goroutine started for one metric definition. *)
Definition scrapeTask `{Platform} (queryTimeout : string) (metric : Metric) (c : Cycle)
  : Cycle * Res unit :=
  let w2 := checkDefinition metric (world c) in
  let '(w3, r) := ScrapeMetric queryTimeout (db (exporter c)) metric w2 in
  match r with
  | Ok (Some e) =>
      (mkCycle _ (inc_scrapeErrors (Context metric) (exporter c))
         (log_Errorln (ErrScraping (Context metric) (MetricsDesc metric) e) w3)
         (Some e),
       Ok tt)
  | Ok None => (mkCycle _ (exporter c) w3 None, Ok tt)
  | Panic p => (mkCycle _ (exporter c) w3 (err c), Panic p)
  | Fatal => (mkCycle _ (exporter c) w3 (err c), Fatal)
  end.

(** The goroutines in the order [sched] in which they run, each taken to
    run without another one in between; a panic in one ends the process. *)
Fixpoint runTasks `{Platform} (queryTimeout : string) (sched : list Metric) (c : Cycle)
  : Cycle * Res unit :=
  match sched with
  | [] => (c, Ok tt)
  | metric :: rest =>
      match scrapeTask queryTimeout metric c with
      | (c', Ok _) => runTasks queryTimeout rest c'
      | (c', r) => (c', r)
      end
  end.

(** [connect]: it panics when [sql.Open] fails. *)
Definition connect `{Driver} (dsn : string) (w : World) : World * Res DB :=
  match sql_Open dsn with
  | inl d => (w, Ok d)
  | inr e => (log_Errorln (ErrConnecting dsn) w, Panic e)
  end.

Definition set_db `{Platform} (d : DB) (e : Exporter) : Exporter :=
  mkExporter _ (dsn e) d (up e) (error_gauge e) (totalScrapes e) (scrapeErrors e).

Definition set_up `{Platform} (v : Z) (e : Exporter) : Exporter :=
  mkExporter _ (dsn e) (db e) v (error_gauge e) (totalScrapes e) (scrapeErrors e).

Definition set_error `{Platform} (v : Z) (e : Exporter) : Exporter :=
  mkExporter _ (dsn e) (db e) (up e) v (totalScrapes e) (scrapeErrors e).

Definition inc_totalScrapes `{Platform} (e : Exporter) : Exporter :=
  mkExporter _ (dsn e) (db e) (up e) (error_gauge e) (S (totalScrapes e)) (scrapeErrors e).

(** The deferred function of [scrape]. *)
Definition scrape_deferred `{Platform} (c : Cycle) : Cycle :=
  mkCycle _ (set_error (match err c with None => 0 | Some _ => 1 end) (exporter c))
    (world c) (err c).

(** [scrape]; [sched] is [metricsToScrap.Metric] in the order in which the
    goroutines run. The handle is pinged twice: the answer of the first
    ping ([err1]) is read for a closed database only, the answer of the
    second ([err2]), given by the handle the exporter holds then, decides
    whether the database is up. A panic of [connect] unwinds [scrape]
    itself, so the deferred function still runs, with the first answer in
    [err]; a panic in a goroutine ends the process before it does. *)
Definition scrape `{Driver} (queryTimeout : string) (sched : list Metric)
    (e : Exporter) (w : World) : Cycle * Res unit :=
  let e := inc_totalScrapes e in
  let err1 := Ping (db e) 0 in
  let e := set_db (pinged (db e)) e in
  let reconnected :=
    match err1 with
    | Some er =>
        if Contains (Error er) "sql: database is closed" then
          match connect (dsn e) w with
          | (w', Ok d) => (set_db d e, w', Ok tt)
          | (w', Panic p) => (e, w', Panic p)
          | (w', Fatal) => (e, w', Fatal)
          end
        else (e, w, Ok tt)
    | None => (e, w, Ok tt)
    end in
  match reconnected with
  | (e, w, Ok _) =>
      let err2 := Ping (db e) 0 in
      let e := set_db (pinged (db e)) e in
      match err2 with
      | Some er =>
          (scrape_deferred
             (mkCycle _ (set_up 0 e) (log_Errorln (ErrPinging er) w) (Some er)),
           Ok tt)
      | None =>
          match runTasks queryTimeout sched (mkCycle _ (set_up 1 e) w None) with
          | (c, Ok _) => (scrape_deferred c, Ok tt)
          | (c, r) => (c, r)
          end
      end
  | (e, w, Panic p) => (scrape_deferred (mkCycle _ e w err1), Panic p)
  | (e, w, Fatal) => (mkCycle _ e w err1, Fatal)
  end.

(** ** The probe target resolver: [formExporterDSN] *)

Module ini.

(** A loaded configuration file: section name to key to value. *)
Abbreviation File := (gmap string (gmap string string)).

(** The library's [Key.Uint] on a value: [strconv.ParseUint(value, 0, 64)],
    whose prefixes depend on the Go release. *)
Class Numbers : Type := { Key_Uint : string -> option Z }.

(** [File.GetSection]: an error when no section has the name. A section
    is referred to by its name. *)
Definition GetSection (cfg : File) (name : string) : option string :=
  match cfg !! name with
  | Some _ => Some name
  | None => None
  end.

Definition join_dot (l : list string) : string :=
  match l with
  | [] => ""
  | h :: t => fold_left (fun acc x => acc +:+ "." +:+ x) t h
  end.

(** The section's own name, then the names of the sections it is a child
    of: the name cut at its last dot, again and again. *)
Definition chain (name : string) : list string :=
  let parts := Split name "." in
  (fun k => join_dot (take k parts)) <$> rev (seq 1 (length parts)).

Fixpoint lookup_chain (cfg : File) (names : list string) (key : string) : option string :=
  match names with
  | [] => None
  | n :: rest =>
      match cfg !! n ≫= (fun sec => sec !! key) with
      | Some v => Some v
      | None => lookup_chain cfg rest key
      end
  end.

(** [Section.Key(key).String()] on the section of that name, which may be
    one [File.Section] has just made, empty, because the file has none: the
    value in the section, else in the nearest section it is a child of
    that has the key, else empty. Values are taken as they are stored. *)
Definition Key_String (cfg : File) (section key : string) : string :=
  default "" (lookup_chain cfg (chain section) key).

Definition MustString (val def : string) : string :=
  if decide (val = "") then def else val.

Definition MustUint `{Numbers} (val : string) (def : Z) : Z :=
  default def (Key_Uint val).

End ini.

Definition formExporterDSN `{ini.Numbers} (target module : string) (cfg : ini.File)
  : string * option error :=
  (* parse specific target *)
  let parsed : (string * Z) + error :=
    if decide (target = "") then inl ("", 0)
    else
      let targetPort := Split target ":" in
      let host := default "" (targetPort !! 0%nat) in
      match targetPort !! 1%nat with
      | Some p =>
          match ParseUint p with
          | None => inr (errors_New ("invalid port " +:+ p))
          | Some port => inl (host, port)
          end
      | None => inl (host, 0)
      end in
  match parsed with
  | inr e => ("", Some e)
  | inl (host, port) =>
      (* Get client config *)
      let section :=
        if decide (module = "" \/ module = "default") then "client"
        else "client." +:+ module in
      match ini.GetSection cfg section with
      | None => ("", Some (errors_New ("didn't find section [" +:+ section +:+ "] in config")))
      | Some client =>
          (* default host & port *)
          let host :=
            if decide (host = "")
            then ini.MustString (ini.Key_String cfg "client" "host") "localhost"
            else host in
          let port :=
            if decide (port = 0)
            then ini.MustUint (ini.Key_String cfg "client" "port") 3306
            else port in
          let user := ini.Key_String cfg client "user" in
          let password := ini.Key_String cfg client "password" in
          if decide (user = "" \/ password = "") then
            ("", Some (errors_New
               ("no user or password specified under [" +:+ section +:+ "] in config")))
          else
            ("dm://" +:+ user +:+ ":" +:+ password +:+ "@" +:+ host +:+ ":"
               +:+ FormatInt port +:+ "?autoCommit=true",
             None)
      end
  end.

(** ** [Collect] and [Describe] *)

(** Metric name parts: the constant [exporter]. *)
Definition exporterSubsystem : string := "exporter".

(** The exporter's own metrics as [Collect] sends them after a scrape, each
    with the value it holds then (the duration gauge holds a time). *)
Inductive HealthMetric : Type :=
| DurationGauge
| TotalScrapesCounter (v : nat)
| ErrorGauge (v : Z)
| ScrapeErrorsCounter (collector : string) (v : nat)
| UpGauge (v : Z).

(** The descriptors [NewExporter] gives them. *)
Definition healthDesc (h : HealthMetric) : Desc :=
  match h with
  | DurationGauge =>
      NewDesc (BuildFQName namespace exporterSubsystem "last_scrape_duration_seconds")
        "Duration of the last scrape of metrics from DM DB." []
  | TotalScrapesCounter _ =>
      NewDesc (BuildFQName namespace exporterSubsystem "scrapes_total")
        "Total number of times DM DB was scraped for metrics." []
  | ErrorGauge _ =>
      NewDesc (BuildFQName namespace exporterSubsystem "last_scrape_error")
        "Whether the last scrape of metrics from DM DB resulted in an error (1 for error, 0 for success)."
        []
  | ScrapeErrorsCounter _ _ =>
      NewDesc (BuildFQName namespace exporterSubsystem "scrape_errors_total")
        "Total number of times an error occured scraping a DM database." ["collector"]
  | UpGauge _ =>
      NewDesc (BuildFQName namespace "" "up") "Whether the DM database server is up." []
  end.

(** What [Collect] sends after [e.scrape(ch)]: duration, scrape counter,
    error gauge, the counters of the vector (one per label value it has
    been asked for, in an order Go leaves open), and [up]. *)
Definition healthMetrics `{Platform} (e : Exporter) : list HealthMetric :=
  [DurationGauge; TotalScrapesCounter (totalScrapes e); ErrorGauge (error_gauge e)]
  ++ ((fun kv => ScrapeErrorsCounter kv.1 kv.2) <$> map_to_list (scrapeErrors e))
  ++ [UpGauge (up e)].

(** [Collect]: the scraped metrics are in the channel of the resulting
    world, the exporter's own metrics follow them. *)
Definition Collect `{Driver} (queryTimeout : string) (sched : list Metric)
    (e : Exporter) (w : World) : (Cycle * list HealthMetric) * Res unit :=
  match scrape queryTimeout sched e w with
  | (c, Ok _) => ((c, healthMetrics (exporter c)), Ok tt)
  | (c, r) => ((c, []), r)
  end.

(** [Describe]: it runs [Collect] on a channel of its own, [metricCh], and
    forwards the descriptor of every metric that arrives there. *)
Definition Describe `{Driver} (queryTimeout : string) (sched : list Metric)
    (e : Exporter) (w : World) : (Cycle * list Desc) * Res unit :=
  let '((c, hs), r) :=
    Collect queryTimeout sched e (mkWorld _ [] (logs w) (rng w)) in
  ((c, (desc <$> ch (world c)) ++ (healthDesc <$> hs)), r).

(** ** Instances to run the definitions on

    A platform on which a float is an integer written in decimal, the
    metrics library refuses an empty name and a wrong number of label
    values, and a map is visited in the order of [map_to_list]. *)

#[export] Instance testPlatform : Platform := {|
  float64 := Z;
  ParseFloat := Atoi;
  Native := Empty_set;
  Sprint_native := fun x => match x with end;
  NewConstMetric_err := fun fq _ vl lvs =>
    if decide (fq = "") then Some (lib_error "prometheus" "empty metric name")
    else if decide (length lvs = length vl) then None
    else Some (lib_error "prometheus" "inconsistent label cardinality");
  range_map := fun _ m => map_to_list m;
  range_map_perm := fun _ m => Permutation_refl (map_to_list m)
|}.

#[export] Instance testNumbers : ini.Numbers := {| ini.Key_Uint := ParseUint |}.

Definition emptyWorld : World := mkWorld _ [] [] 0.

(** A result set: the columns [ID] and [VALUE], two rows. *)
Definition twoRows : QueryResult := {|
  deadline_exceeded := false;
  query_err := None;
  cols := ["ID"; "VALUE"];
  events := [Scanned [VString "a b"; VInt64 7]; Scanned [VString "c"; VNil]];
  rows_err := None
|}.

(** The first row is delivered in time; the deadline passes before the
    second, and the iteration ends on [context.DeadlineExceeded]. *)
Definition lateDeadline : QueryResult := {|
  deadline_exceeded := false;
  query_err := None;
  cols := ["ID"; "VALUE"];
  events := [Scanned [VString "a b"; VInt64 7]];
  rows_err := Some context_DeadlineExceeded
|}.

(** The deadline has passed when [QueryContext] returns. *)
Definition earlyDeadline : QueryResult := {|
  deadline_exceeded := true;
  query_err := Some context_DeadlineExceeded;
  cols := [];
  events := [];
  rows_err := None
|}.

(** ** Predicates the theorems are stated with *)

(** [sampleFor ... (metric, metricHelp) s]: [s] is the metric the loop body
    sends for the value column [metric] of [row]. *)
Definition sampleFor `{Platform} (context : string) (labels : list string)
    (metricsType : gmap string string) (fieldToAppend : string)
    (row : gmap string string) (kv : string * string) (s : ConstMetric) : Prop :=
  exists value valueType,
    ParseFloat (TrimSpace (row_get row kv.1)) = Some value /\
    GetMetricType kv.1 metricsType = Ok valueType /\
    s = mkConstMetric _
          (metricDesc context labels fieldToAppend row kv.1 kv.2).1 valueType value
          (metricDesc context labels fieldToAppend row kv.1 kv.2).2.

(** The rows [GeneratePrometheusMetrics] hands to its row handler. *)
Definition rowsOf `{Platform} (r : QueryResult) : list (gmap string string) :=
  omap (fun ev => match ev with
                  | Scanned columns => Some (normalize (cols r) columns)
                  | ScanFailed _ => None
                  end) (events r).

(** A database that answers every query with [r]. *)
Definition testDB (r : QueryResult) : DB :=
  {| Ping := fun _ => None; QueryContext := fun _ _ => r |}.

(** The same result set with another iteration error. *)
Definition set_rows_err `{Platform} (e : option error) (r : QueryResult) : QueryResult :=
  {| deadline_exceeded := deadline_exceeded r; query_err := query_err r;
     cols := cols r; events := events r; rows_err := e |}.

(** The same handle whose result sets end with the iteration error [e]. *)
Definition with_rows_err `{Platform} (e : option error) (d : DB) : DB :=
  {| Ping := Ping d; QueryContext := fun timeout query => set_rows_err e (QueryContext d timeout query) |}.

(** A row handler that counts the rows it is given. *)
Definition countRows (row : gmap string string) (n : nat) : nat * Res (option error) :=
  (S n, Ok None).


(** An exporter after a successful ping, with no error counted yet. *)
Definition exporterOn (d : DB) : Exporter := mkExporter _ "dm://u:p@h:5236" d 1 0 1 ∅.

(** Two definitions of the same context. *)
Definition sessionsA : Metric := {|
  Context := "sessions"; Labels := []; MetricsDesc := {[ "value" := "Sessions." ]};
  MetricsType := ∅; FieldToAppend := ""; Request := "select a"; IgnoreZeroResult := false |}.

Definition sessionsB : Metric := {|
  Context := "sessions"; Labels := []; MetricsDesc := {[ "value" := "Sessions." ]};
  MetricsType := ∅; FieldToAppend := ""; Request := "select b"; IgnoreZeroResult := false |}.

(** A definition without [metricsdesc] that ignores a zero result. *)
Definition noMetricsDesc : Metric := {|
  Context := "sessions"; Labels := []; MetricsDesc := ∅;
  MetricsType := ∅; FieldToAppend := ""; Request := "select id, value from t";
  IgnoreZeroResult := true |}.

(** A database on which the query [select a] is refused and every other
    one answered with [twoRows]. *)
Definition mixedDB : DB :=
  {| Ping := fun _ => None;
     QueryContext := fun _ query =>
       if decide (query = "select a")
       then {| deadline_exceeded := false; query_err := Some (lib_error "dm" "syntax error");
               cols := []; events := []; rows_err := None |}
       else twoRows |}.

(** A handle that is down, and a driver that opens handles like it. *)
Definition downDB : DB :=
  {| Ping := fun _ => Some (lib_error "dm" "connection refused");
     QueryContext := fun _ _ => twoRows |}.

#[export] Instance testDriver : Driver := {| sql_Open := fun _ => inl downDB |}.




(** Whether the answer of a ping says that the database is closed, as
    [scrape] reads it. *)
Definition says_closed (a : option error) : bool :=
  match a with
  | Some er => Contains (Error er) "sql: database is closed"
  | None => false
  end.

(** A handle whose first ping fails and whose later pings succeed. *)
Definition wakingDB : DB :=
  {| Ping := fun n => match n with
                      | O => Some (lib_error "dm" "connection refused")
                      | S _ => None
                      end;
     QueryContext := QueryContext mixedDB |}.

(** A handle that has been closed. *)
Definition closedDB : DB :=
  {| Ping := fun _ => Some (lib_error "database/sql" "sql: database is closed");
     QueryContext := fun _ _ => twoRows |}.

(** A driver that opens no handle. *)
Definition brokenDriver : Driver :=
  {| sql_Open := fun _ => inr (lib_error "database/sql" "sql: unknown driver dm") |}.

(** * Theorems *)

(** ** Kind resolution *)

Lemma strToPromType_other (t : string) :
  t <> "gauge" -> t <> "counter" -> strToPromType !! t = None.
Proof.
  intros Hg Hc. unfold strToPromType.
  rewrite lookup_insert_ne by congruence.
  apply lookup_singleton_ne. congruence.
Qed.

Lemma lower_byte_not_upper (c : ascii) : is_upper (lower_byte c) = false.
Proof. destruct c as [[] [] [] [] [] [] [] []]; reflexivity. Qed.

Lemma lower_byte_idem (c : ascii) : lower_byte (lower_byte c) = lower_byte c.
Proof.
  unfold lower_byte at 1. rewrite lower_byte_not_upper. reflexivity.
Qed.

Lemma ToLower_idem (s : string) : ToLower (ToLower s) = ToLower s.
Proof.
  induction s as [|c s IH]; simpl; [reflexivity|].
  rewrite lower_byte_idem, IH. reflexivity.
Qed.

Lemma GetMetricType_other_key (col key tok : string) (metricsType : gmap string string) :
  ToLower key <> key ->
  GetMetricType col (<[key := tok]> metricsType) = GetMetricType col metricsType /\
  GetMetricType col (delete key metricsType) = GetMetricType col metricsType.
Proof.
  intros Hkey.
  assert (key <> ToLower col) as Hne.
  { intros ->. apply Hkey. apply ToLower_idem. }
  unfold GetMetricType.
  rewrite lookup_insert_ne, lookup_delete_ne by exact Hne. split; reflexivity.
Qed.

(** C8. [GetMetricType] looks the column up under its lower-cased name, and
    under no other spelling: an entry whose key holds an upper-case letter
    is never read. A column with no entry under its lower-cased name
    resolves to Gauge. An entry there whose token is "gauge" or "counter"
    in any mix of upper and lower case resolves to Gauge or Counter. Any
    other token there, the empty one included, makes the function panic:
    it never falls back to Gauge. *)
Theorem GetMetricType_resolution (col : string) (metricsType : gmap string string) :
  (metricsType !! ToLower col = None ->
     GetMetricType col metricsType = Ok GaugeValue) /\
  (forall tok, metricsType !! ToLower col = Some tok ->
     (ToLower tok = "gauge" -> GetMetricType col metricsType = Ok GaugeValue) /\
     (ToLower tok = "counter" -> GetMetricType col metricsType = Ok CounterValue) /\
     (ToLower tok <> "gauge" -> ToLower tok <> "counter" ->
        GetMetricType col metricsType =
          Panic (errors_New ("Error while getting prometheus type " +:+ ToLower tok)))) /\
  (forall key tok, ToLower key <> key ->
     GetMetricType col (<[key := tok]> metricsType) = GetMetricType col metricsType) /\
  ToLower "GAUGE" = "gauge" /\ ToLower "Counter" = "counter" /\
  GetMetricType col (<[ToLower col := "Gauge"]> metricsType) = Ok GaugeValue /\
  GetMetricType col (<[ToLower col := "COUNTER"]> metricsType) = Ok CounterValue /\
  GetMetricType col (<[ToLower col := "histogram"]> metricsType) =
    Panic (errors_New "Error while getting prometheus type histogram").
Proof.
  split; [|split; [|split]].
  - unfold GetMetricType. intros ->. reflexivity.
  - unfold GetMetricType. intros tok ->. repeat split.
    + intros ->. reflexivity.
    + intros ->. reflexivity.
    + intros Hg Hc. rewrite strToPromType_other; auto.
  - intros key tok Hkey. apply (GetMetricType_other_key col key tok metricsType Hkey).
  - unfold GetMetricType. rewrite !lookup_insert_eq. repeat split.
Qed.

(** C8, as the specification words it, fails: the kind mapping gives the
    column [Value] the token [histogram], which is no kind, or the token
    [counter]; the entry is not under the lower-cased name, it is not
    read, and the column resolves to Gauge without a failure. *)
Lemma GetMetricType_mixed_case_downgrade :
  GetMetricType "Value" {[ "Value" := "histogram" ]} = Ok GaugeValue /\
  GetMetricType "value" {[ "Value" := "histogram" ]} = Ok GaugeValue /\
  GetMetricType "Value" {[ "Value" := "counter" ]} = Ok GaugeValue.
Proof. repeat split; reflexivity. Qed.

(** ** The row normalizer *)

Section Normalizer.
Context `{Platform}.

Lemma rowMap_dom (cols : list string) (columns : list Value) :
  forall (i : nat) (m : gmap string string),
    dom (rowMap cols i columns m) = list_to_set (ToLower <$> cols) ∪ dom m.
Proof.
  induction cols as [|c cols IH]; intros i m; simpl.
  - rewrite (left_id_L ∅ (∪)). reflexivity.
  - rewrite IH, dom_insert_L, (assoc_L (∪)).
    rewrite (comm_L (∪) (list_to_set (ToLower <$> cols)) {[ToLower c]}). reflexivity.
Qed.

Lemma rowMap_lookup_fresh (cols : list string) (columns : list Value) (k : string) :
  forall (i : nat) (m : gmap string string),
    (forall c, c ∈ cols -> ToLower c <> k) ->
    rowMap cols i columns m !! k = m !! k.
Proof.
  induction cols as [|c cols IH]; intros i m Hfresh; simpl; [reflexivity|].
  rewrite IH.
  - apply lookup_insert_ne, Hfresh. left.
  - intros c' Hc'. apply Hfresh. right. exact Hc'.
Qed.

Lemma rowMap_lookup_last (cols : list string) (columns : list Value) :
  forall (i : nat) (m : gmap string string) (j : nat) (c : string),
    cols !! j = Some c ->
    (forall (j' : nat) c', (j < j')%nat -> cols !! j' = Some c' -> ToLower c' <> ToLower c) ->
    rowMap cols i columns m !! ToLower c
      = Some (Sprint (default VNil (columns !! (i + j)%nat))).
Proof.
  induction cols as [|c0 cols IH]; intros i m j c Hj Hlast; [discriminate|].
  destruct j as [|j]; simpl in *.
  - injection Hj as ->.
    rewrite rowMap_lookup_fresh.
    + rewrite lookup_insert_eq, Nat.add_0_r. reflexivity.
    + intros c' Hc'. apply list_elem_of_lookup in Hc' as [j' Hj'].
      apply (Hlast (S j')); [lia | exact Hj'].
  - rewrite (IH (S i) _ j c Hj).
    + do 4 f_equal. lia.
    + intros j' c' Hlt Hj'. apply (Hlast (S j')); [lia | exact Hj'].
Qed.

(** C3. The map built for one row has exactly the lower-cased column names
    as keys, and under the lower-cased name of a column (the last one,
    where two names agree up to case) it holds what [%v] prints for the
    column's value: the decimal form of an integer, a string as it is, and
    the text [<nil>] for a null. *)
Theorem normalize_row (cols : list string) (columns : list Value) :
  dom (normalize cols columns) = list_to_set (ToLower <$> cols) /\
  (forall (j : nat) (c : string),
     cols !! j = Some c ->
     (forall (j' : nat) c', (j < j')%nat -> cols !! j' = Some c' -> ToLower c' <> ToLower c) ->
     normalize cols columns !! ToLower c = Some (Sprint (default VNil (columns !! j)))) /\
  Sprint VNil = "<nil>" /\
  (forall z, Sprint (VInt64 z) = FormatInt z) /\
  (forall s, Sprint (VString s) = s).
Proof.
  unfold normalize. repeat split.
  - rewrite rowMap_dom, dom_empty_L, (right_id_L ∅ (∪)). reflexivity.
  - intros j c Hj Hlast. apply (rowMap_lookup_last cols columns 0 ∅ j c Hj Hlast).
Qed.

End Normalizer.

(** C3, as the specification words it, fails: a null in column [ID] is
    stored as the text [<nil>], not as the empty string. *)
Lemma normalize_null_not_empty :
  normalize ["ID"] [VNil] !! "id" = Some "<nil>" /\
  normalize ["ID"] [VNil] !! "id" <> Some "".
Proof. split; [reflexivity | vm_compute; discriminate]. Qed.

(** ** The metric translator *)

Section Translator.
Context `{Platform}.
Variables (context : string) (labels : list string)
  (metricsType : gmap string string) (fieldToAppend : string).

(** Whatever way the loop over the value columns ends, it has only added
    to the channel, each metric added is the one of a column it ranged
    over, and [metricsCount] moved only if a metric was sent. *)
Lemma parseColumns_emits (row : gmap string string) (kvs : list (string * string)) :
  forall st st' r,
    parseColumns context labels metricsType fieldToAppend row kvs st = (st', r) ->
    exists new,
      ch st'.1 = ch st.1 ++ new /\
      rng st'.1 = rng st.1 /\
      (new = [] -> st'.2 = st.2) /\
      Forall (fun s => exists kv, kv ∈ kvs /\
                sampleFor context labels metricsType fieldToAppend row kv s) new.
Proof.
  induction kvs as [|[metric metricHelp] kvs IH]; intros st st' r Hrun; simpl in Hrun.
  - injection Hrun as <- <-. exists []. rewrite app_nil_r. auto.
  - destruct (ParseFloat (TrimSpace (row_get row metric))) as [value|] eqn:Hparse.
    + destruct (metricDesc context labels fieldToAppend row metric metricHelp)
        as [d lvs] eqn:Hd.
      destruct (GetMetricType metric metricsType) as [valueType|e|] eqn:Hkind;
        try (injection Hrun as <- <-; exists []; rewrite app_nil_r; auto).
      unfold MustNewConstMetric in Hrun.
      destruct (NewConstMetric_err (fqName d) (help d) (variableLabels d) lvs) eqn:Hnew;
        try (injection Hrun as <- <-; exists []; rewrite app_nil_r; auto).
      apply IH in Hrun as (new & Hch & Hrng & _ & Hall). simpl in *.
      exists (mkConstMetric _ d valueType value lvs :: new). repeat split.
      * rewrite Hch, <- app_assoc. reflexivity.
      * exact Hrng.
      * discriminate.
      * constructor.
        -- exists (metric, metricHelp). split; [left|].
           exists value, valueType. simpl. rewrite Hd. auto.
        -- eapply Forall_impl; [exact Hall|].
           intros s (kv & Hin & Hs). exists kv. split; [right; exact Hin | exact Hs].
    + apply IH in Hrun as (new & Hch & Hrng & Hcnt & Hall). simpl in *.
      exists new. repeat split; auto.
      eapply Forall_impl; [exact Hall|].
      intros s (kv & Hin & Hs). exists kv. split; [right; exact Hin | exact Hs].
Qed.

(** When neither the kind resolution nor the metrics library refuses a
    column whose value parses, the loop returns nil and sends one metric
    for each such column, in the order of the loop. *)
Lemma parseColumns_complete (row : gmap string string) (kvs : list (string * string)) :
  forall st,
    (forall kv value, kv ∈ kvs ->
       ParseFloat (TrimSpace (row_get row kv.1)) = Some value ->
       (exists valueType, GetMetricType kv.1 metricsType = Ok valueType) /\
       let dl := metricDesc context labels fieldToAppend row kv.1 kv.2 in
       NewConstMetric_err (fqName dl.1) (help dl.1) (variableLabels dl.1) dl.2 = None) ->
    exists st' new,
      parseColumns context labels metricsType fieldToAppend row kvs st = (st', Ok None) /\
      ch st'.1 = ch st.1 ++ new /\
      Forall2 (sampleFor context labels metricsType fieldToAppend row)
        (filter (fun kv => is_Some (ParseFloat (TrimSpace (row_get row kv.1)))) kvs) new /\
      logs st'.1
      = logs st.1 ++
        ((fun kv => ErrUnableToConvert kv.1 kv.2 (row_get row kv.1)) <$>
           filter (fun kv => ~ is_Some (ParseFloat (TrimSpace (row_get row kv.1)))) kvs).
Proof.
  induction kvs as [|[metric metricHelp] kvs IH]; intros st Hok; simpl.
  - exists st, []. rewrite !app_nil_r. repeat split. constructor.
  - destruct (ParseFloat (TrimSpace (row_get row metric))) as [value|] eqn:Hparse.
    + destruct (Hok (metric, metricHelp) value) as [[valueType Hkind] Hnew];
        [left | exact Hparse |]. simpl in Hkind, Hnew.
      destruct (metricDesc context labels fieldToAppend row metric metricHelp)
        as [d lvs] eqn:Hd. simpl in Hnew.
      rewrite Hkind. unfold MustNewConstMetric. rewrite Hnew.
      destruct (IH (send (mkConstMetric _ d valueType value lvs) st.1, wrap_int (st.2 + 1)))
        as (st' & new & Hrun & Hch & Hall & Hlogs).
      { intros kv v Hin. apply Hok. right. exact Hin. }
      exists st', (mkConstMetric _ d valueType value lvs :: new). repeat split.
      * exact Hrun.
      * rewrite Hch. simpl. rewrite <- app_assoc. reflexivity.
      * rewrite filter_cons_True by (simpl; rewrite Hparse; eauto).
        constructor; [|exact Hall].
        exists value, valueType. simpl. rewrite Hd. auto.
      * rewrite filter_cons_False; [exact Hlogs|].
        simpl. rewrite Hparse. intros Hno. apply Hno. eauto.
    + destruct (IH (log_Errorln (ErrUnableToConvert metric metricHelp (row_get row metric)) st.1,
                    st.2)) as (st' & new & Hrun & Hch & Hall & Hlogs).
      { intros kv v Hin. apply Hok. right. exact Hin. }
      exists st', new. repeat split; auto.
      * rewrite filter_cons_False; [exact Hall|].
        simpl. rewrite Hparse. intros [? ?]. discriminate.
      * rewrite filter_cons_True by (simpl; rewrite Hparse; intros [? ?]; discriminate).
        rewrite Hlogs. simpl. rewrite <- app_assoc. reflexivity.
Qed.

End Translator.

Section Scraper.
Context `{Platform}.
Variables (context : string) (labels : list string)
  (metricsDesc metricsType : gmap string string) (fieldToAppend : string).

Lemma genericParser_emits (row : gmap string string) (st st' : World * Z)
    (r : Res (option error)) :
  genericParser context labels metricsDesc metricsType fieldToAppend row st = (st', r) ->
  exists new,
    ch st'.1 = ch st.1 ++ new /\
    (new = [] -> st'.2 = st.2) /\
    Forall (fun s => exists kv, kv ∈ map_to_list metricsDesc /\
              sampleFor context labels metricsType fieldToAppend row kv s) new.
Proof.
  unfold genericParser. intros Hrun.
  apply parseColumns_emits in Hrun as (new & Hch & _ & Hcnt & Hall). simpl in *.
  exists new. repeat split; auto.
  eapply Forall_impl; [exact Hall|].
  intros s (kv & Hin & Hs). exists kv. split; [|exact Hs].
  rewrite <- (range_map_perm (rng st.1) metricsDesc). exact Hin.
Qed.

Lemma scanRows_emits (cols : list string) (evs : list RowEvent) :
  forall (st st' : World * Z) (r : Res (option error)),
    scanRows (genericParser context labels metricsDesc metricsType fieldToAppend)
      cols evs st = (st', r) ->
    exists new,
      ch st'.1 = ch st.1 ++ new /\
      (new = [] -> st'.2 = st.2) /\
      Forall (fun s => exists columns kv,
                Scanned columns ∈ evs /\ kv ∈ map_to_list metricsDesc /\
                sampleFor context labels metricsType fieldToAppend
                  (normalize cols columns) kv s) new.
Proof.
  induction evs as [|ev evs IH]; intros st st' r Hrun; simpl in Hrun.
  - injection Hrun as <- <-. exists []. rewrite app_nil_r. auto.
  - destruct ev as [columns|e].
    + destruct (genericParser context labels metricsDesc metricsType fieldToAppend
                  (normalize cols columns) st) as [st1 r1] eqn:Hrow.
      apply genericParser_emits in Hrow as (new1 & Hch1 & Hcnt1 & Hall1).
      assert (Hhere : Forall (fun s => exists columns0 kv,
                Scanned columns0 ∈ Scanned columns :: evs /\ kv ∈ map_to_list metricsDesc /\
                sampleFor context labels metricsType fieldToAppend
                  (normalize cols columns0) kv s) new1).
      { eapply Forall_impl; [exact Hall1|].
        intros s (kv & Hin & Hs). exists columns, kv. split; [left | auto]. }
      destruct r1 as [[e|]|e|];
        try (injection Hrun as <- <-; exists new1; auto).
      apply IH in Hrun as (new2 & Hch2 & Hcnt2 & Hall2).
      exists (new1 ++ new2). repeat split.
      * rewrite Hch2, Hch1, <- app_assoc. reflexivity.
      * intros Hnil. apply app_eq_nil in Hnil as [-> ->].
        rewrite Hcnt2, Hcnt1; reflexivity.
      * apply Forall_app. split; [exact Hhere|].
        eapply Forall_impl; [exact Hall2|].
        intros s (columns0 & kv & Hin & Hkv & Hs).
        exists columns0, kv. split; [right; exact Hin | auto].
    + injection Hrun as <- <-. exists []. rewrite app_nil_r. auto.
Qed.

Lemma elem_of_rowsOf (r : QueryResult) (columns : list Value) :
  Scanned columns ∈ events r -> normalize (cols r) columns ∈ rowsOf r.
Proof.
  intros Hin. unfold rowsOf. apply list_elem_of_omap.
  exists (Scanned columns). split; [exact Hin | reflexivity].
Qed.

Lemma GeneratePrometheusMetrics_emits (queryTimeout : string) (db : DB) (request : string)
    (st st' : World * Z) (r : Res (option error)) :
  GeneratePrometheusMetrics queryTimeout db
    (genericParser context labels metricsDesc metricsType fieldToAppend) request st
    = (st', r) ->
  exists new,
    ch st'.1 = ch st.1 ++ new /\
    (new = [] -> st'.2 = st.2) /\
    Forall (fun s => exists timeout row kv,
              Atoi queryTimeout = Some timeout /\
              row ∈ rowsOf (QueryContext db timeout request) /\
              kv ∈ map_to_list metricsDesc /\
              sampleFor context labels metricsType fieldToAppend row kv s) new.
Proof.
  unfold GeneratePrometheusMetrics. intros Hrun.
  destruct (Atoi queryTimeout) as [timeout|] eqn:Htimeout;
    [|injection Hrun as <- <-; exists []; rewrite app_nil_r; auto].
  destruct (deadline_exceeded (QueryContext db timeout request));
    [injection Hrun as <- <-; exists []; rewrite app_nil_r; auto|].
  destruct (query_err (QueryContext db timeout request));
    [injection Hrun as <- <-; exists []; rewrite app_nil_r; auto|].
  apply scanRows_emits in Hrun as (new & Hch & Hcnt & Hall).
  exists new. repeat split; auto.
  eapply Forall_impl; [exact Hall|].
  intros s (columns & kv & Hin & Hkv & Hs).
  exists timeout, (normalize (cols (QueryContext db timeout request)) columns), kv.
  repeat split; auto using elem_of_rowsOf.
Qed.

End Scraper.

Lemma metricDesc_help `{Platform} (context : string) (labels : list string)
    (fieldToAppend : string) (row : gmap string string) (metric metricHelp : string) :
  help (metricDesc context labels fieldToAppend row metric metricHelp).1 = metricHelp.
Proof. unfold metricDesc. destruct (decide (fieldToAppend = "")); reflexivity. Qed.

(** C1. One call of the row handler, for a definition none of whose value
    columns with a parsable value is refused by the kind resolution or by
    the metrics library: the handler returns nil, and the metrics it sends
    are, in the order of the loop, one for each value column whose trimmed
    text parses as a float, with that float as value. A column whose text
    does not parse sends nothing, is logged, and does not stop the
    others. *)
Theorem genericParser_parseable_columns `{Platform} (context : string)
    (labels : list string) (metricsDesc metricsType : gmap string string)
    (fieldToAppend : string) (row : gmap string string) (st : World * Z) :
  (forall metric metricHelp value,
     metricsDesc !! metric = Some metricHelp ->
     ParseFloat (TrimSpace (row_get row metric)) = Some value ->
     (exists valueType, GetMetricType metric metricsType = Ok valueType) /\
     let dl := metricDesc context labels fieldToAppend row metric metricHelp in
     NewConstMetric_err (fqName dl.1) (help dl.1) (variableLabels dl.1) dl.2 = None) ->
  exists st' columns emitted skipped,
    genericParser context labels metricsDesc metricsType fieldToAppend row st
      = (st', Ok None) /\
    ch st'.1 = ch st.1 ++ emitted /\
    columns ≡ₚ filter (fun kv => is_Some (ParseFloat (TrimSpace (row_get row kv.1))))
                 (map_to_list metricsDesc) /\
    Forall2 (fun kv s =>
               ParseFloat (TrimSpace (row_get row kv.1)) = Some (val s) /\
               help (desc s) = kv.2 /\
               GetMetricType kv.1 metricsType = Ok (valType s))
      columns emitted /\
    skipped ≡ₚ filter (fun kv => ~ is_Some (ParseFloat (TrimSpace (row_get row kv.1))))
                 (map_to_list metricsDesc) /\
    logs st'.1
    = logs st.1 ++ ((fun kv => ErrUnableToConvert kv.1 kv.2 (row_get row kv.1)) <$> skipped).
Proof.
  intros Hok. unfold genericParser.
  destruct (parseColumns_complete context labels metricsType fieldToAppend row
              (range_map (rng st.1) metricsDesc) (next_range st.1, st.2))
    as (st' & new & Hrun & Hch & Hall & Hlogs).
  { intros [metric metricHelp] value Hin. apply Hok.
    apply elem_of_map_to_list. rewrite <- (range_map_perm (rng st.1) metricsDesc).
    exact Hin. }
  exists st', (filter (fun kv => is_Some (ParseFloat (TrimSpace (row_get row kv.1))))
                 (range_map (rng st.1) metricsDesc)), new,
    (filter (fun kv => ~ is_Some (ParseFloat (TrimSpace (row_get row kv.1))))
       (range_map (rng st.1) metricsDesc)).
  split; [exact Hrun|]. split; [exact Hch|].
  split; [rewrite (range_map_perm (rng st.1) metricsDesc); reflexivity|].
  split; [|split].
  - eapply Forall2_impl; [exact Hall|].
    intros kv s (value & valueType & Hparse & Hkind & ->). simpl.
    rewrite metricDesc_help. auto.
  - rewrite (range_map_perm (rng st.1) metricsDesc). reflexivity.
  - exact Hlogs.
Qed.

Lemma BuildFQName_parts (context name : string) :
  BuildFQName namespace context name
  = if decide (name = "") then ""
    else if decide (context = "") then "dmdb_" +:+ name
    else "dmdb_" +:+ context +:+ "_" +:+ name.
Proof.
  unfold BuildFQName, namespace.
  destruct (decide (name = "")) as [|_]; [reflexivity|].
  destruct (decide ("dmdb" <> "" /\ context <> "")) as [[_ Hc]|Hno].
  - destruct (decide (context = "")) as [|_]; [contradiction|reflexivity].
  - destruct (decide (context = "")) as [_|Hc].
    + destruct (decide ("dmdb" <> "")) as [_|Hd]; [reflexivity|].
      exfalso. apply Hd. discriminate.
    + exfalso. apply Hno. split; [discriminate | exact Hc].
Qed.

(** C5. Every metric a call of [ScrapeGenericValues] sends is the metric of
    one value column of one row of the result: its value is the float that
    column holds in the row, its kind the kind of that column, its help
    the help of that column. With [fieldToAppend] set it has no label
    names and no label values, and its name is built from the namespace,
    the context and the cleaned value of that field in the row. With
    [fieldToAppend] empty its name is built from the namespace, the
    context and the name of its own column, and it carries the labels of
    the definition with their values in the row. [BuildFQName] joins the
    parts with underscores and leaves an empty context out. *)
Theorem ScrapeGenericValues_naming `{Platform} (queryTimeout : string) (db : DB)
    (context : string) (labels : list string) (metricsDesc metricsType : gmap string string)
    (fieldToAppend : string) (ignoreZeroResult : bool) (request : string) (w : World) :
  (exists new,
     ch (ScrapeGenericValues queryTimeout db context labels metricsDesc metricsType
           fieldToAppend ignoreZeroResult request w).1 = ch w ++ new /\
     forall s, s ∈ new ->
       exists timeout row column columnHelp,
         Atoi queryTimeout = Some timeout /\
         row ∈ rowsOf (QueryContext db timeout request) /\
         metricsDesc !! column = Some columnHelp /\
         ParseFloat (TrimSpace (row_get row column)) = Some (val s) /\
         GetMetricType column metricsType = Ok (valType s) /\
         help (desc s) = columnHelp /\
         (fieldToAppend <> "" ->
            variableLabels (desc s) = [] /\ labelValues s = [] /\
            fqName (desc s)
              = BuildFQName namespace context (cleanName (row_get row fieldToAppend))) /\
         (fieldToAppend = "" ->
            fqName (desc s) = BuildFQName namespace context column /\
            variableLabels (desc s) = labels /\
            labelValues s = row_get row <$> labels)) /\
  (forall name,
     BuildFQName namespace context name
     = if decide (name = "") then ""
       else if decide (context = "") then "dmdb_" +:+ name
       else "dmdb_" +:+ context +:+ "_" +:+ name).
Proof.
  split; [|intros name; apply BuildFQName_parts].
  unfold ScrapeGenericValues.
  destruct (GeneratePrometheusMetrics queryTimeout db
              (genericParser context labels metricsDesc metricsType fieldToAppend)
              request (w, 0)) as [[w' metricsCount] r] eqn:Hrun.
  apply GeneratePrometheusMetrics_emits in Hrun as (new & Hch & _ & Hall). simpl in Hch.
  exists new. split.
  - destruct r as [[e|]|e|]; simpl; try exact Hch.
    destruct (negb ignoreZeroResult && (metricsCount =? 0)%Z); exact Hch.
  - intros s Hs. rewrite Forall_forall in Hall.
    destruct (Hall s Hs)
      as (timeout & row & [metric metricHelp] & Htimeout & Hrow & Hkv & Hsample).
    destruct Hsample as (value & valueType & Hparse & Hkind & ->).
    exists timeout, row, metric, metricHelp. simpl in *.
    split; [exact Htimeout|]. split; [exact Hrow|].
    split; [apply elem_of_map_to_list; exact Hkv|].
    split; [exact Hparse|]. split; [exact Hkind|].
    split; [apply metricDesc_help|].
    unfold metricDesc. split.
    + intros Hset. destruct (decide (fieldToAppend = "")); [contradiction|]. auto.
    + intros Hunset. destruct (decide (fieldToAppend = "")); [|contradiction]. auto.
Qed.

(** C5, as the specification words it, fails: a definition without a
    context has no context part in its names. The metric of the column
    [value] is named [dmdb_value], and the metric named after the field
    [id] is named [dmdb_a_b]; neither name has three parts. *)
Lemma ScrapeGenericValues_naming_empty_context :
  ch (ScrapeGenericValues "5" (testDB twoRows) "" ["id"] {[ "value" := "help" ]} ∅ ""
        false "select id, value from t" emptyWorld).1
  = [mkConstMetric _ (NewDesc "dmdb_value" "help" ["id"]) GaugeValue 7 ["a b"]] /\
  ch (ScrapeGenericValues "5" (testDB twoRows) "" ["id"] {[ "value" := "help" ]} ∅ "id"
        false "select id, value from t" emptyWorld).1
  = [mkConstMetric _ (NewDesc "dmdb_a_b" "help" []) GaugeValue 7 []] /\
  "dmdb_value" <> "dmdb" +:+ "_" +:+ "" +:+ "_" +:+ "value" /\
  "dmdb_a_b" <> "dmdb" +:+ "_" +:+ "" +:+ "_" +:+ cleanName "a b".
Proof. repeat split; try reflexivity; discriminate. Qed.

(** C4. When the query and the row loop end without an error and the
    scrape has sent no metric, [ScrapeGenericValues] returns the error
    [No metrics found while parsing] if [ignoreZeroResult] is false, and
    nil if it is true. *)
Theorem ScrapeGenericValues_zero_result `{Platform} (queryTimeout : string) (db : DB)
    (context : string) (labels : list string) (metricsDesc metricsType : gmap string string)
    (fieldToAppend : string) (ignoreZeroResult : bool) (request : string)
    (w : World) (st' : World * Z) :
  GeneratePrometheusMetrics queryTimeout db
    (genericParser context labels metricsDesc metricsType fieldToAppend) request (w, 0)
    = (st', Ok None) ->
  ch st'.1 = ch w ->
  ScrapeGenericValues queryTimeout db context labels metricsDesc metricsType
    fieldToAppend ignoreZeroResult request w
  = (st'.1, if ignoreZeroResult then Ok None
            else Ok (Some (errors_New "No metrics found while parsing"))).
Proof.
  intros Hrun Hnone. unfold ScrapeGenericValues. rewrite Hrun.
  apply GeneratePrometheusMetrics_emits in Hrun as (new & Hch & Hcnt & _).
  simpl in Hch, Hcnt. rewrite Hnone in Hch.
  assert (new = []) as Hnil.
  { apply (f_equal length) in Hch. rewrite length_app in Hch.
    destruct new; [reflexivity | simpl in Hch; lia]. }
  destruct st' as [w' metricsCount]. simpl in *. rewrite (Hcnt Hnil).
  destruct ignoreZeroResult; reflexivity.
Qed.

(** C1 at a row with the label column [id], the value column [value]
    holding a number between spaces and the value column [other] holding
    text that is no number. *)
Lemma genericParser_parseable_columns_witness :
  exists st' columns emitted skipped,
    genericParser "sessions" ["id"] {[ "value" := "help"; "other" := "help2" ]} ∅ ""
      {[ "id" := "a"; "value" := " 7 "; "other" := "x" ]} (emptyWorld, 0)
      = (st', Ok None) /\
    ch st'.1 = ch emptyWorld ++ emitted /\
    columns ≡ₚ filter (fun kv => is_Some (ParseFloat (TrimSpace
                 (row_get {[ "id" := "a"; "value" := " 7 "; "other" := "x" ]} kv.1))))
                 (map_to_list {[ "value" := "help"; "other" := "help2" ]}) /\
    Forall2 (fun kv s =>
               ParseFloat (TrimSpace
                 (row_get {[ "id" := "a"; "value" := " 7 "; "other" := "x" ]} kv.1))
                 = Some (val s) /\
               help (desc s) = kv.2 /\
               GetMetricType kv.1 ∅ = Ok (valType s))
      columns emitted /\
    skipped ≡ₚ filter (fun kv => ~ is_Some (ParseFloat (TrimSpace
                 (row_get {[ "id" := "a"; "value" := " 7 "; "other" := "x" ]} kv.1))))
                 (map_to_list {[ "value" := "help"; "other" := "help2" ]}) /\
    logs st'.1
    = logs emptyWorld ++
      ((fun kv => ErrUnableToConvert kv.1 kv.2
                    (row_get {[ "id" := "a"; "value" := " 7 "; "other" := "x" ]} kv.1))
         <$> skipped).
Proof.
  apply (genericParser_parseable_columns "sessions" ["id"]
           {[ "value" := "help"; "other" := "help2" ]} ∅ ""
           {[ "id" := "a"; "value" := " 7 "; "other" := "x" ]} (emptyWorld, 0)).
  intros metric metricHelp value Hlook Hparse. split.
  - exists GaugeValue. unfold GetMetricType. rewrite lookup_empty. reflexivity.
  - apply lookup_insert_Some in Hlook as [[<- <-]|[_ Hlook]].
    + reflexivity.
    + apply lookup_singleton_Some in Hlook as [<- <-]. reflexivity.
Defined.

(** C1, as the specification words it, fails: the value of column [v]
    parses, the kind token of the column is not a kind, the handler panics
    and no metric has been sent. *)
Lemma genericParser_kind_panic :
  ParseFloat (TrimSpace (row_get {[ "v" := "1" ]} "v")) = Some 1 /\
  genericParser "sessions" [] {[ "v" := "help" ]} {[ "v" := "histogram" ]} ""
    {[ "v" := "1" ]} (emptyWorld, 0)
  = ((mkWorld _ [] [] 1, 0),
     Panic (errors_New "Error while getting prometheus type histogram")).
Proof. split; reflexivity. Qed.

(** A query that returns no row. *)
Lemma ScrapeGenericValues_zero_result_witness :
  ScrapeGenericValues "5"
    (testDB {| deadline_exceeded := false; query_err := None; cols := ["VALUE"];
               events := []; rows_err := None |})
    "sessions" [] {[ "value" := "help" ]} ∅ "" false "select 1" emptyWorld
  = (emptyWorld, Ok (Some (errors_New "No metrics found while parsing"))) /\
  ScrapeGenericValues "5"
    (testDB {| deadline_exceeded := false; query_err := None; cols := ["VALUE"];
               events := []; rows_err := None |})
    "sessions" [] {[ "value" := "help" ]} ∅ "" true "select 1" emptyWorld
  = (emptyWorld, Ok None).
Proof.
  split.
  - apply (ScrapeGenericValues_zero_result "5" _ "sessions" [] {[ "value" := "help" ]} ∅
             "" false "select 1" emptyWorld (emptyWorld, 0)); reflexivity.
  - apply (ScrapeGenericValues_zero_result "5" _ "sessions" [] {[ "value" := "help" ]} ∅
             "" true "select 1" emptyWorld (emptyWorld, 0)); reflexivity.
Defined.

(** One scrape of [twoRows] with the label [id] and the value column
    [value]: the first row gives a gauge, the null of the second row does
    not parse and is logged. *)
Example ScrapeGenericValues_labels :
  ScrapeGenericValues "5" (testDB twoRows) "sessions" ["id"] {[ "value" := "help" ]} ∅ ""
    false "select id, value from t" emptyWorld
  = (mkWorld _
       [mkConstMetric _ (NewDesc "dmdb_sessions_value" "help" ["id"]) GaugeValue 7 ["a b"]]
       [ErrUnableToConvert "value" "help" "<nil>"] 2,
     Ok None).
Proof. reflexivity. Qed.

(** The same scrape with the field [id] appended to the name. *)
Example ScrapeGenericValues_field :
  ScrapeGenericValues "5" (testDB twoRows) "sessions" ["id"] {[ "value" := "help" ]}
    {[ "value" := "Counter" ]} "id" false "select id, value from t" emptyWorld
  = (mkWorld _
       [mkConstMetric _ (NewDesc "dmdb_sessions_a_b" "help" []) CounterValue 7 []]
       [ErrUnableToConvert "value" "help" "<nil>"] 2,
     Ok None).
Proof. reflexivity. Qed.

(** ** The generic value scraper *)

Section Scanner.
Context `{Platform} {St : Type}.
Variable parse : gmap string string -> St -> St * Res (option error).

Lemma scanRows_all_ok (cols : list string) (evs : list RowEvent) :
  (forall ev, ev ∈ evs -> exists columns, ev = Scanned columns) ->
  (forall row s0, exists s1, parse row s0 = (s1, Ok None)) ->
  forall s, exists s', scanRows parse cols evs s = (s', Ok None).
Proof.
  intros Hscan Hparse. induction evs as [|ev evs IH]; intros s; simpl.
  - exists s. reflexivity.
  - destruct (Hscan ev) as [columns ->]; [left|].
    destruct (Hparse (normalize cols columns) s) as [s1 ->].
    apply IH. intros ev Hev. apply Hscan. right. exact Hev.
Qed.

(** An error the row loop returns is the error of a failed scan or one
    the row handler returned. *)
Lemma scanRows_error_origin (cols : list string) (evs : list RowEvent) :
  forall s s' e,
    scanRows parse cols evs s = (s', Ok (Some e)) ->
    ScanFailed e ∈ evs \/ exists row s0 s1, parse row s0 = (s1, Ok (Some e)).
Proof.
  induction evs as [|ev evs IH]; intros s s' e Hrun; simpl in Hrun; [discriminate|].
  destruct ev as [columns|e0].
  - destruct (parse (normalize cols columns) s) as [s1 r1] eqn:Hrow.
    destruct r1 as [[e1|]|e1|]; try discriminate.
    + injection Hrun as <- <-. right. eauto.
    + apply IH in Hrun as [Hin|Hp]; [left; right; exact Hin | right; exact Hp].
  - injection Hrun as <- <-. left. left.
Qed.

End Scanner.

(** C10. The query has started, every row is scanned and handled without
    an error, and the iteration has ended on an error of the driver:
    [GeneratePrometheusMetrics] returns nil. It returns the same whatever
    the iteration error is, since it never reads it. *)
Theorem GeneratePrometheusMetrics_ignores_rows_err `{Platform} {St : Type}
    (queryTimeout : string) (timeout : Z) (db : DB)
    (parse : gmap string string -> St -> St * Res (option error))
    (query : string) (s : St) (e : error) :
  Atoi queryTimeout = Some timeout ->
  deadline_exceeded (QueryContext db timeout query) = false ->
  query_err (QueryContext db timeout query) = None ->
  (forall ev, ev ∈ events (QueryContext db timeout query) ->
     exists columns, ev = Scanned columns) ->
  (forall row s0, exists s1, parse row s0 = (s1, Ok None)) ->
  rows_err (QueryContext db timeout query) = Some e ->
  (exists s', GeneratePrometheusMetrics queryTimeout db parse query s = (s', Ok None)) /\
  (forall e', GeneratePrometheusMetrics queryTimeout (with_rows_err e' db) parse query s
              = GeneratePrometheusMetrics queryTimeout db parse query s).
Proof.
  intros Htimeout Hdl Hq Hscan Hparse _. split.
  - unfold GeneratePrometheusMetrics. rewrite Htimeout, Hdl, Hq.
    apply scanRows_all_ok; assumption.
  - intros e'. unfold GeneratePrometheusMetrics. rewrite Htimeout. reflexivity.
Qed.

(** Two rows are delivered, then the connection is reset. *)
Lemma GeneratePrometheusMetrics_ignores_rows_err_witness :
  (exists s', GeneratePrometheusMetrics "5"
                (with_rows_err (Some (lib_error "dm" "connection reset")) (testDB twoRows))
                countRows "select 1" 0%nat = (s', Ok None)) /\
  (forall e', GeneratePrometheusMetrics "5"
                (with_rows_err e'
                   (with_rows_err (Some (lib_error "dm" "connection reset")) (testDB twoRows)))
                countRows "select 1" 0%nat
              = GeneratePrometheusMetrics "5"
                  (with_rows_err (Some (lib_error "dm" "connection reset")) (testDB twoRows))
                  countRows "select 1" 0%nat).
Proof.
  apply (GeneratePrometheusMetrics_ignores_rows_err "5" 5
           (with_rows_err (Some (lib_error "dm" "connection reset")) (testDB twoRows))
           countRows "select 1" 0%nat (lib_error "dm" "connection reset")).
  - reflexivity.
  - reflexivity.
  - reflexivity.
  - intros ev Hev. simpl in Hev.
    apply elem_of_cons in Hev as [->|Hev]; [eauto|].
    apply elem_of_cons in Hev as [->|Hev]; [eauto|].
    apply elem_of_nil in Hev. contradiction.
  - intros row s0. exists (S s0). reflexivity.
  - reflexivity.
Defined.

Lemma parseColumns_result `{Platform} (context : string) (labels : list string)
    (metricsType : gmap string string) (fieldToAppend : string)
    (row : gmap string string) (kvs : list (string * string)) :
  forall st st' r,
    parseColumns context labels metricsType fieldToAppend row kvs st = (st', r) ->
    r = Ok None \/ exists e, r = Panic e.
Proof.
  induction kvs as [|[metric metricHelp] kvs IH]; intros st st' r Hrun; simpl in Hrun.
  - injection Hrun as <- <-. left. reflexivity.
  - destruct (ParseFloat (TrimSpace (row_get row metric))) as [value|]; [|eauto].
    destruct (metricDesc context labels fieldToAppend row metric metricHelp) as [d lvs].
    destruct (GetMetricType metric metricsType) as [valueType|e|] eqn:Hkind.
    + unfold MustNewConstMetric in Hrun.
      destruct (NewConstMetric_err (fqName d) (help d) (variableLabels d) lvs) as [e|].
      * injection Hrun as <- <-. right. eauto.
      * eauto.
    + injection Hrun as <- <-. right. eauto.
    + unfold GetMetricType in Hkind.
      destruct (metricsType !! ToLower metric) as [strType|]; [|discriminate].
      destruct (strToPromType !! ToLower strType); discriminate.
Qed.

Lemma scanRows_result `{Platform} {St : Type}
    (parse : gmap string string -> St -> St * Res (option error))
    (cols : list string) (evs : list RowEvent) :
  (forall ev, ev ∈ evs -> exists columns, ev = Scanned columns) ->
  (forall row s0 s1 r, parse row s0 = (s1, r) -> r = Ok None \/ exists e, r = Panic e) ->
  forall s s' r,
    scanRows parse cols evs s = (s', r) -> r = Ok None \/ exists e, r = Panic e.
Proof.
  intros Hscan Hparse. induction evs as [|ev evs IH]; intros s s' r Hrun; simpl in Hrun.
  - injection Hrun as <- <-. left. reflexivity.
  - destruct (Hscan ev) as [columns ->]; [left|].
    destruct (parse (normalize cols columns) s) as [s1 r1] eqn:Hrow.
    destruct (Hparse _ _ _ _ Hrow) as [->|[e ->]].
    + apply (IH (fun ev Hev => Hscan ev (proj2 (elem_of_cons _ _ _) (or_intror Hev)))
               s1 s' r Hrun).
    + injection Hrun as <- <-. right. eauto.
Qed.

(** C6. The deadline is looked at once, when [QueryContext] has returned.
    If it has passed by then, [ScrapeGenericValues] returns the error
    [DM query timed out], whatever the driver returned, and nothing is
    sent. If it passes later, while the rows are read, so that the loop
    over the rows ends on [context.DeadlineExceeded], no timed-out error
    is returned: the rows that arrived are handled, and the result is nil,
    or [No metrics found while parsing], or a panic of the row handler. *)
Theorem ScrapeGenericValues_timeout `{Platform} (queryTimeout : string) (timeout : Z)
    (db : DB) (context : string) (labels : list string)
    (metricsDesc metricsType : gmap string string) (fieldToAppend : string)
    (ignoreZeroResult : bool) (request : string) (w : World) :
  Atoi queryTimeout = Some timeout ->
  (deadline_exceeded (QueryContext db timeout request) = true ->
     ScrapeGenericValues queryTimeout db context labels metricsDesc metricsType
       fieldToAppend ignoreZeroResult request w
     = (w, Ok (Some (errors_New "DM query timed out")))) /\
  (deadline_exceeded (QueryContext db timeout request) = false ->
   query_err (QueryContext db timeout request) = None ->
   (forall ev, ev ∈ events (QueryContext db timeout request) ->
      exists columns, ev = Scanned columns) ->
   rows_err (QueryContext db timeout request) = Some context_DeadlineExceeded ->
   (ScrapeGenericValues queryTimeout db context labels metricsDesc metricsType
      fieldToAppend ignoreZeroResult request w).2 = Ok None \/
   (ScrapeGenericValues queryTimeout db context labels metricsDesc metricsType
      fieldToAppend ignoreZeroResult request w).2
   = Ok (Some (errors_New "No metrics found while parsing")) \/
   exists e,
     (ScrapeGenericValues queryTimeout db context labels metricsDesc metricsType
        fieldToAppend ignoreZeroResult request w).2 = Panic e).
Proof.
  intros Htimeout. split.
  - intros Hdl. unfold ScrapeGenericValues, GeneratePrometheusMetrics.
    rewrite Htimeout, Hdl. reflexivity.
  - intros Hdl Hq Hscan _. unfold ScrapeGenericValues, GeneratePrometheusMetrics.
    rewrite Htimeout, Hdl, Hq.
    destruct (scanRows (genericParser context labels metricsDesc metricsType fieldToAppend)
                (cols (QueryContext db timeout request))
                (events (QueryContext db timeout request)) (w, 0))
      as [[w' metricsCount] r] eqn:Hrun.
    apply scanRows_result in Hrun as [->|[e ->]].
    + destruct (negb ignoreZeroResult && (metricsCount =? 0)%Z); simpl; auto.
    + simpl. eauto.
    + exact Hscan.
    + intros row s0 s1 r0 Hrow. unfold genericParser in Hrow.
      eapply parseColumns_result. exact Hrow.
Qed.

(** The first row arrives in time and the deadline passes before the
    second: the metric of the first row is sent, and the scrape is a
    success. With the deadline passed when [QueryContext] returns, the
    timed-out error is returned. *)
Lemma ScrapeGenericValues_timeout_witness :
  ((ScrapeGenericValues "5" (testDB lateDeadline) "sessions" ["id"] {[ "value" := "help" ]}
      ∅ "" false "select id, value from t" emptyWorld).2 = Ok None \/
   (ScrapeGenericValues "5" (testDB lateDeadline) "sessions" ["id"] {[ "value" := "help" ]}
      ∅ "" false "select id, value from t" emptyWorld).2
   = Ok (Some (errors_New "No metrics found while parsing")) \/
   exists e,
     (ScrapeGenericValues "5" (testDB lateDeadline) "sessions" ["id"]
        {[ "value" := "help" ]} ∅ "" false "select id, value from t" emptyWorld).2
     = Panic e) /\
  ScrapeGenericValues "5" (testDB lateDeadline) "sessions" ["id"] {[ "value" := "help" ]}
    ∅ "" false "select id, value from t" emptyWorld
  = (mkWorld testPlatform
       [mkConstMetric testPlatform (NewDesc "dmdb_sessions_value" "help" ["id"])
          GaugeValue 7 ["a b"]] [] 1,
     Ok None) /\
  ScrapeGenericValues "5" (testDB earlyDeadline) "sessions" ["id"] {[ "value" := "help" ]}
    ∅ "" false "select id, value from t" emptyWorld
  = (emptyWorld, Ok (Some (errors_New "DM query timed out"))).
Proof.
  split; [|split; [reflexivity|]].
  - apply (proj2 (@ScrapeGenericValues_timeout testPlatform "5" 5 (testDB lateDeadline)
             "sessions" ["id"] {[ "value" := "help" ]} ∅ "" false "select id, value from t"
             emptyWorld eq_refl)); try reflexivity.
    intros ev Hev. simpl in Hev.
    apply elem_of_cons in Hev as [->|Hev]; [eauto|].
    apply elem_of_nil in Hev. contradiction.
  - exact (proj1 (@ScrapeGenericValues_timeout testPlatform "5" 5 (testDB earlyDeadline)
             "sessions" ["id"] {[ "value" := "help" ]} ∅ "" false "select id, value from t"
             emptyWorld eq_refl) eq_refl).
Defined.

(** ** The probe target resolver *)

Section Resolver.
Context `{ini.Numbers}.

Lemma formExporterDSN_section_missing (target module : string) (cfg : ini.File) :
  module <> "" -> module <> "default" ->
  cfg !! ("client." +:+ module) = None ->
  (target = "" \/ Split target ":" !! 1%nat = None \/
   exists p, Split target ":" !! 1%nat = Some p /\ is_Some (ParseUint p)) ->
  formExporterDSN target module cfg
  = ("", Some (errors_New ("didn't find section [client." +:+ module +:+ "] in config"))).
Proof.
  intros Hm Hd Hmiss Htarget. unfold formExporterDSN.
  destruct (decide (module = "" \/ module = "default")) as [[?|?]|_]; try contradiction.
  unfold ini.GetSection. rewrite Hmiss.
  destruct (decide (target = "")) as [|Hne]; [reflexivity|].
  destruct Htarget as [?|[Hnone|(p & Hp & [port Hport])]]; [contradiction| |].
  - rewrite Hnone. reflexivity.
  - rewrite Hp, Hport. reflexivity.
Qed.

Lemma formExporterDSN_resolved (target : string) (cfg : ini.File) (host : string) (port : Z) :
  is_Some (cfg !! "client") ->
  ini.Key_String cfg "client" "user" <> "" ->
  ini.Key_String cfg "client" "password" <> "" ->
  (target = "" /\ host = "" /\ port = 0 \/
   target <> "" /\ Split target ":" !! 0%nat = Some host /\
   (Split target ":" !! 1%nat = None /\ port = 0 \/
    exists p, Split target ":" !! 1%nat = Some p /\ ParseUint p = Some port)) ->
  formExporterDSN target "" cfg
  = ("dm://" +:+ ini.Key_String cfg "client" "user" +:+ ":"
       +:+ ini.Key_String cfg "client" "password" +:+ "@"
       +:+ (if decide (host = "")
            then ini.MustString (ini.Key_String cfg "client" "host") "localhost"
            else host) +:+ ":"
       +:+ FormatInt (if decide (port = 0)
                      then ini.MustUint (ini.Key_String cfg "client" "port") 3306
                      else port)
       +:+ "?autoCommit=true",
     None).
Proof.
  intros [sec Hsec] Huser Hpw Htarget. unfold formExporterDSN. cbv zeta.
  assert (Hcreds :
    forall h p,
      (if decide (ini.Key_String cfg "client" "user" = ""
                  \/ ini.Key_String cfg "client" "password" = "")
       then ("", Some (errors_New
               ("no user or password specified under [" +:+ "client" +:+ "] in config")))
       else (h, p)) = (h, p : option error)).
  { intros h p. destruct (decide _) as [[?|?]|_]; try contradiction. reflexivity. }
  destruct (decide ("" = "" \/ "" = "default")) as [_|Hno];
    [|exfalso; apply Hno; left; reflexivity].
  unfold ini.GetSection. rewrite Hsec.
  destruct Htarget as [(-> & -> & ->)|(Hne & Hhost & Hport)].
  - destruct (decide ("" = "")) as [_|?]; [|contradiction]. apply Hcreds.
  - destruct (decide (target = "")) as [|_]; [contradiction|].
    rewrite Hhost. simpl default.
    destruct Hport as [[-> ->]|(p & -> & ->)]; apply Hcreds.
Qed.

End Resolver.

Lemma Key_String_client (cfg : ini.File) (sec : gmap string string) (key value : string) :
  cfg !! "client" = Some sec -> sec !! key = Some value ->
  ini.Key_String cfg "client" key = value.
Proof.
  intros Hsec Hkey. unfold ini.Key_String.
  change (ini.chain "client") with ["client"]. simpl.
  rewrite Hsec. simpl. rewrite Hkey. reflexivity.
Qed.

(** C7. On a configuration whose section [client] gives a user and a
    password, the target [db1:5236] with an empty module resolves to a
    connection string for host [db1] and port 5236, and an empty target
    with an empty module to one for the host and the port of the section
    [client] ([localhost] and 3306 where it gives none). A module other
    than the empty one and [default] whose section [client.<module>] the
    configuration does not have is answered with the section-not-found
    error, for every target whose port, if it has one, is a number. *)
Theorem formExporterDSN_canonical `{ini.Numbers} (cfg : ini.File) :
  (is_Some (cfg !! "client") ->
   ini.Key_String cfg "client" "user" <> "" ->
   ini.Key_String cfg "client" "password" <> "" ->
   formExporterDSN "db1:5236" "" cfg
   = ("dm://" +:+ ini.Key_String cfg "client" "user" +:+ ":"
        +:+ ini.Key_String cfg "client" "password" +:+ "@" +:+ "db1" +:+ ":" +:+ "5236"
        +:+ "?autoCommit=true", None) /\
   formExporterDSN "" "" cfg
   = ("dm://" +:+ ini.Key_String cfg "client" "user" +:+ ":"
        +:+ ini.Key_String cfg "client" "password" +:+ "@"
        +:+ ini.MustString (ini.Key_String cfg "client" "host") "localhost" +:+ ":"
        +:+ FormatInt (ini.MustUint (ini.Key_String cfg "client" "port") 3306)
        +:+ "?autoCommit=true", None)) /\
  (forall sec host portText port,
     cfg !! "client" = Some sec ->
     sec !! "host" = Some host -> host <> "" ->
     sec !! "port" = Some portText -> ini.Key_Uint portText = Some port ->
     ini.MustString (ini.Key_String cfg "client" "host") "localhost" = host /\
     ini.MustUint (ini.Key_String cfg "client" "port") 3306 = port) /\
  (forall target module,
     module <> "" -> module <> "default" ->
     cfg !! ("client." +:+ module) = None ->
     (target = "" \/ Split target ":" !! 1%nat = None \/
      exists p, Split target ":" !! 1%nat = Some p /\ is_Some (ParseUint p)) ->
     formExporterDSN target module cfg
     = ("", Some (errors_New ("didn't find section [client." +:+ module +:+ "] in config")))) /\
  (cfg !! "client.missingmod" = None ->
   formExporterDSN "h" "missingmod" cfg
   = ("", Some (errors_New "didn't find section [client.missingmod] in config"))).
Proof.
  split; [|split; [|split]].
  - intros Hsec Huser Hpw. split.
    + rewrite (formExporterDSN_resolved "db1:5236" cfg "db1" 5236 Hsec Huser Hpw).
      * reflexivity.
      * right. split; [discriminate|]. split; [reflexivity|].
        right. exists "5236". split; reflexivity.
    + rewrite (formExporterDSN_resolved "" cfg "" 0 Hsec Huser Hpw).
      * reflexivity.
      * left. auto.
  - intros sec host portText port Hsec Hhost Hne Hport Huint.
    rewrite (Key_String_client cfg sec "host" host Hsec Hhost).
    rewrite (Key_String_client cfg sec "port" portText Hsec Hport).
    unfold ini.MustString, ini.MustUint. rewrite Huint.
    destruct (decide (host = "")); [contradiction|]. auto.
  - intros target module. apply formExporterDSN_section_missing.
  - intros Hmiss.
    apply (formExporterDSN_section_missing "h" "missingmod" cfg); try discriminate.
    + exact Hmiss.
    + right. left. reflexivity.
Qed.

(** C7, as the specification words it, fails on the store of its own
    example: the section [client] gives a host and a port and no user or
    password, and the target [db1:5236] is refused. A target whose port is
    no number is refused for its port before the module is looked at. *)
Lemma formExporterDSN_needs_credentials :
  formExporterDSN "db1:5236" "" {[ "client" := {[ "host" := "x"; "port" := "1" ]} ]}
  = ("", Some (errors_New "no user or password specified under [client] in config")) /\
  formExporterDSN "h:x" "missingmod" {[ "client" := {[ "host" := "x"; "port" := "1" ]} ]}
  = ("", Some (errors_New "invalid port x")).
Proof. split; reflexivity. Qed.

(** The three inputs on a store with credentials. *)
Example formExporterDSN_examples :
  let store : ini.File :=
    {[ "client" := {[ "host" := "x"; "port" := "1"; "user" := "u"; "password" := "p" ]} ]} in
  formExporterDSN "db1:5236" "" store = ("dm://u:p@db1:5236?autoCommit=true", None) /\
  formExporterDSN "" "" store = ("dm://u:p@x:1?autoCommit=true", None) /\
  formExporterDSN "h" "missingmod" store
  = ("", Some (errors_New "didn't find section [client.missingmod] in config")).
Proof. repeat split; reflexivity. Qed.

(** ** The collector *)

Lemma ScrapeMetric_appends `{Platform} (queryTimeout : string) (d : DB) (metric : Metric)
    (w : World) :
  exists new, ch (ScrapeMetric queryTimeout d metric w).1 = ch w ++ new.
Proof.
  unfold ScrapeMetric, ScrapeGenericValues.
  destruct (GeneratePrometheusMetrics queryTimeout d
              (genericParser (Context metric) (Labels metric) (MetricsDesc metric)
                 (MetricsType metric) (FieldToAppend metric))
              (Request metric) (w, 0)) as [[w' metricsCount] r] eqn:Hrun.
  apply GeneratePrometheusMetrics_emits in Hrun as (new & Hch & _ & _). simpl in Hch.
  exists new.
  destruct r as [[e|]|e|]; simpl; try exact Hch.
  destruct (negb (IgnoreZeroResult metric) && (metricsCount =? 0)%Z); exact Hch.
Qed.

Lemma checkDefinition_ch `{Platform} (metric : Metric) (w : World) :
  ch (checkDefinition metric w) = ch w.
Proof.
  unfold checkDefinition.
  destruct (decide (Request metric = "")), (decide (MetricsDesc metric = ∅)); reflexivity.
Qed.



Lemma genericParser_no_columns `{Platform} (context : string) (labels : list string)
    (metricsType : gmap string string) (fieldToAppend : string)
    (row : gmap string string) (st : World * Z) :
  genericParser context labels ∅ metricsType fieldToAppend row st
  = ((next_range st.1, st.2), Ok None).
Proof.
  unfold genericParser.
  assert (range_map (rng st.1) ∅ = []) as ->; [|reflexivity].
  apply Permutation_nil_r. rewrite range_map_perm, map_to_list_empty. reflexivity.
Qed.

Lemma scanRows_no_columns `{Platform} (context : string) (labels : list string)
    (metricsType : gmap string string) (fieldToAppend : string)
    (cols : list string) (evs : list RowEvent) :
  (forall ev, ev ∈ evs -> exists columns, ev = Scanned columns) ->
  forall st,
    scanRows (genericParser context labels ∅ metricsType fieldToAppend) cols evs st
    = ((mkWorld _ (ch st.1) (logs st.1) (length evs + rng st.1), st.2), Ok None).
Proof.
  induction evs as [|ev evs IH]; intros Hscan [w n]; simpl.
  - destruct w. reflexivity.
  - destruct (Hscan ev) as [columns ->]; [left|].
    rewrite genericParser_no_columns. simpl.
    rewrite IH by (intros ev Hev; apply Hscan; right; exact Hev).
    simpl. do 3 f_equal. lia.
Qed.

(** C2. A definition with an empty [MetricsDesc] that ignores a zero result
    is not rejected. On a database that answers its query without an error
    the goroutine logs the missing [metricsdesc], runs the query all the
    same, sends no metric, and ends with a nil error and no scrape error
    counted. *)
Theorem scrapeTask_empty_metricsdesc `{Platform} (queryTimeout : string) (timeout : Z)
    (metric : Metric) (c : Cycle) :
  Atoi queryTimeout = Some timeout ->
  MetricsDesc metric = ∅ ->
  IgnoreZeroResult metric = true ->
  deadline_exceeded (QueryContext (db (exporter c)) timeout (Request metric)) = false ->
  query_err (QueryContext (db (exporter c)) timeout (Request metric)) = None ->
  (forall ev, ev ∈ events (QueryContext (db (exporter c)) timeout (Request metric)) ->
     exists columns, ev = Scanned columns) ->
  (scrapeTask queryTimeout metric c).2 = Ok tt /\
  err (scrapeTask queryTimeout metric c).1 = None /\
  exporter (scrapeTask queryTimeout metric c).1 = exporter c /\
  ch (world (scrapeTask queryTimeout metric c).1) = ch (world c) /\
  ErrNoMetricsDesc (Request metric) ∈ logs (world (scrapeTask queryTimeout metric c).1).
Proof.
  intros Htimeout Hdesc Hignore Hdl Hq Hscan.
  unfold scrapeTask, ScrapeMetric, ScrapeGenericValues, GeneratePrometheusMetrics.
  rewrite Htimeout, Hdl, Hq, Hdesc, Hignore.
  rewrite (scanRows_no_columns _ _ _ _ _ _ Hscan). simpl.
  repeat split.
  - apply checkDefinition_ch.
  - unfold checkDefinition. rewrite Hdesc.
    destruct (decide (∅ = ∅)) as [_|Hne]; [|contradiction].
    simpl. apply elem_of_app. right. left.
Qed.

(** The definition [noMetricsDesc] on a database that answers with two
    rows. *)
Lemma scrapeTask_empty_metricsdesc_witness :
  (scrapeTask "5" noMetricsDesc (mkCycle _ (exporterOn (testDB twoRows)) emptyWorld None)).2
  = Ok tt /\
  err (scrapeTask "5" noMetricsDesc
         (mkCycle _ (exporterOn (testDB twoRows)) emptyWorld None)).1 = None /\
  exporter (scrapeTask "5" noMetricsDesc
              (mkCycle _ (exporterOn (testDB twoRows)) emptyWorld None)).1
  = exporter (mkCycle _ (exporterOn (testDB twoRows)) emptyWorld None) /\
  ch (world (scrapeTask "5" noMetricsDesc
               (mkCycle _ (exporterOn (testDB twoRows)) emptyWorld None)).1)
  = ch (world (mkCycle _ (exporterOn (testDB twoRows)) emptyWorld None)) /\
  ErrNoMetricsDesc (Request noMetricsDesc)
    ∈ logs (world (scrapeTask "5" noMetricsDesc
                     (mkCycle _ (exporterOn (testDB twoRows)) emptyWorld None)).1).
Proof.
  apply (scrapeTask_empty_metricsdesc "5" 5 noMetricsDesc
           (mkCycle _ (exporterOn (testDB twoRows)) emptyWorld None));
    try reflexivity.
  intros ev Hev. simpl in Hev.
  apply elem_of_cons in Hev as [->|Hev]; [eauto|].
  apply elem_of_cons in Hev as [->|Hev]; [eauto|].
  apply elem_of_nil in Hev. contradiction.
Defined.

(** The whole state after that goroutine. *)
Example scrapeTask_noMetricsDesc_run :
  scrapeTask "5" noMetricsDesc (mkCycle _ (exporterOn (testDB twoRows)) emptyWorld None)
  = (mkCycle _ (exporterOn (testDB twoRows))
       (mkWorld _ [] [ErrNoMetricsDesc "select id, value from t"] 2) None,
     Ok tt).
Proof. reflexivity. Qed.

(** ** Further properties of the code *)

Lemma elem_of_chars_append (c : ascii) (s t : string) :
  c ∈ list_ascii_of_string (s +:+ t) ->
  c ∈ list_ascii_of_string s \/ c ∈ list_ascii_of_string t.
Proof.
  induction s as [|a s IH]; simpl; intros Hc.
  - right. exact Hc.
  - apply elem_of_cons in Hc as [->|Hc].
    + left. left.
    + destruct (IH Hc) as [Hs|Ht]; [left; right; exact Hs | right; exact Ht].
Qed.

Lemma elem_of_chars_Replace (c old : ascii) (new s : string) :
  c ∈ list_ascii_of_string (Replace s old new) ->
  (c ∈ list_ascii_of_string s /\ c <> old) \/ c ∈ list_ascii_of_string new.
Proof.
  induction s as [|a s IH]; simpl; intros Hc.
  - apply elem_of_nil in Hc. contradiction.
  - destruct (Ascii.eqb a old) eqn:Heq.
    + apply elem_of_chars_append in Hc as [Hnew|Hc]; [right; exact Hnew|].
      destruct (IH Hc) as [[Hs Hne]|Hnew]; [left; split; [right|]; assumption | right; exact Hnew].
    + apply Ascii.eqb_neq in Heq.
      apply elem_of_cons in Hc as [->|Hc].
      * left. split; [left | exact Heq].
      * destruct (IH Hc) as [[Hs Hne]|Hnew];
          [left; split; [right|]; assumption | right; exact Hnew].
Qed.

Lemma elem_of_chars_ToLower (c : ascii) (s : string) :
  c ∈ list_ascii_of_string (ToLower s) ->
  exists c0, c0 ∈ list_ascii_of_string s /\ c = lower_byte c0.
Proof.
  induction s as [|a s IH]; simpl; intros Hc.
  - apply elem_of_nil in Hc. contradiction.
  - apply elem_of_cons in Hc as [->|Hc].
    + exists a. split; [left | reflexivity].
    + destruct (IH Hc) as (c0 & Hc0 & ->). exists c0. split; [right; exact Hc0 | reflexivity].
Qed.

Lemma lower_byte_punctuation (c : ascii) :
  (lower_byte c = " "%char -> c = " "%char) /\
  (lower_byte c = "("%char -> c = "("%char) /\
  (lower_byte c = ")"%char -> c = ")"%char) /\
  (lower_byte c = "/"%char -> c = "/"%char) /\
  (lower_byte c = "*"%char -> c = "*"%char).
Proof.
  destruct c as [[] [] [] [] [] [] [] []];
    repeat split; intros Heq; vm_compute in Heq; congruence.
Qed.

Lemma cleanName_chars (s : string) (c : ascii) :
  c ∈ list_ascii_of_string (cleanName s) ->
  c <> " "%char /\ c <> "("%char /\ c <> ")"%char /\ c <> "/"%char /\ c <> "*"%char /\
  is_upper c = false.
Proof.
  intros Hc. unfold cleanName in Hc.
  apply elem_of_chars_ToLower in Hc as (c0 & Hc0 & ->).
  apply elem_of_chars_Replace in Hc0 as [[Hc0 Hstar]|Hnil];
    [|apply elem_of_nil in Hnil; contradiction].
  apply elem_of_chars_Replace in Hc0 as [[Hc0 Hslash]|Hnil];
    [|apply elem_of_nil in Hnil; contradiction].
  apply elem_of_chars_Replace in Hc0 as [[Hc0 Hclose]|Hnil];
    [|apply elem_of_nil in Hnil; contradiction].
  apply elem_of_chars_Replace in Hc0 as [[Hc0 Hopen]|Hnil];
    [|apply elem_of_nil in Hnil; contradiction].
  assert (Hspace : c0 <> " "%char).
  { apply elem_of_chars_Replace in Hc0 as [[_ Hne]|Hunder]; [exact Hne|].
    simpl in Hunder. apply elem_of_cons in Hunder as [->|Hnil]; [discriminate|].
    apply elem_of_nil in Hnil. contradiction. }
  destruct (lower_byte_punctuation c0) as (Hs & Ho & Hc & Hsl & Hst).
  repeat split; try (intros Heq; auto); apply lower_byte_not_upper.
Qed.

(** X1. On a name of ASCII bytes [cleanName] works byte by byte, in the
    order of the name: a space becomes an underscore; a parenthesis, a
    slash and an asterisk are dropped; every other byte is kept, an
    upper-case letter as its lower-case letter. So the cleaned name holds
    no space, parenthesis, slash, asterisk or upper-case ASCII letter. *)
Theorem cleanName_clean (s : string) :
  isASCII s = true ->
  cleanName s
  = match s with
    | EmptyString => EmptyString
    | String c r =>
        (if Ascii.eqb c " " then "_"
         else if Ascii.eqb c "(" || Ascii.eqb c ")" || Ascii.eqb c "/" || Ascii.eqb c "*"
              then ""
              else String (lower_byte c) "") +:+ cleanName r
    end /\
  (forall c, c ∈ list_ascii_of_string (cleanName s) ->
     c <> " "%char /\ c <> "("%char /\ c <> ")"%char /\ c <> "/"%char /\ c <> "*"%char /\
     is_upper c = false).
Proof.
  intros _. split; [|apply cleanName_chars].
  destruct s as [|c r]; [reflexivity|].
  destruct (Ascii.eqb c " ") eqn:E1; [apply Ascii.eqb_eq in E1; subst c; reflexivity|].
  destruct (Ascii.eqb c "(") eqn:E2; [apply Ascii.eqb_eq in E2; subst c; reflexivity|].
  destruct (Ascii.eqb c ")") eqn:E3; [apply Ascii.eqb_eq in E3; subst c; reflexivity|].
  destruct (Ascii.eqb c "/") eqn:E4; [apply Ascii.eqb_eq in E4; subst c; reflexivity|].
  destruct (Ascii.eqb c "*") eqn:E5; [apply Ascii.eqb_eq in E5; subst c; reflexivity|].
  unfold cleanName. simpl. rewrite E1. simpl. rewrite E2. simpl. rewrite E3. simpl.
  rewrite E4. simpl. rewrite E5. reflexivity.
Qed.

Lemma cleanName_clean_witness :
  cleanName "My (Weird) Name/*" = "m" +:+ cleanName "y (Weird) Name/*" /\
  (forall c, c ∈ list_ascii_of_string (cleanName "My (Weird) Name/*") ->
     c <> " "%char /\ c <> "("%char /\ c <> ")"%char /\ c <> "/"%char /\ c <> "*"%char /\
     is_upper c = false).
Proof. apply (cleanName_clean "My (Weird) Name/*"). reflexivity. Defined.

Example cleanName_example : cleanName "My (Weird) Name/*" = "my_weird_name".
Proof. reflexivity. Qed.

(** X2. A target whose port is no unsigned number is refused for the port,
    whatever the module and the configuration. *)
Theorem formExporterDSN_invalid_port `{ini.Numbers} (target module p : string)
    (cfg : ini.File) :
  target <> "" -> Split target ":" !! 1%nat = Some p -> ParseUint p = None ->
  formExporterDSN target module cfg = ("", Some (errors_New ("invalid port " +:+ p))).
Proof.
  intros Hne Hp Hparse. unfold formExporterDSN.
  destruct (decide (target = "")); [contradiction|].
  cbv zeta. rewrite Hp, Hparse. reflexivity.
Qed.

Lemma formExporterDSN_invalid_port_witness :
  formExporterDSN "db1:http" "" ∅ = ("", Some (errors_New "invalid port http")).
Proof.
  apply (formExporterDSN_invalid_port "db1:http" "" "http" ∅);
    [discriminate | reflexivity | reflexivity].
Defined.

(** X3. A section without a user or without a password is refused: no
    connection string is returned, and the error is the one about the
    credentials unless the port of the target was refused before. *)
Theorem formExporterDSN_missing_credentials `{ini.Numbers} (target module : string)
    (cfg : ini.File) :
  let section := if decide (module = "" \/ module = "default") then "client"
                 else "client." +:+ module in
  is_Some (cfg !! section) ->
  ini.Key_String cfg section "user" = "" \/ ini.Key_String cfg section "password" = "" ->
  (formExporterDSN target module cfg).1 = "" /\
  ((formExporterDSN target module cfg).2
   = Some (errors_New ("no user or password specified under [" +:+ section
                       +:+ "] in config")) \/
   exists p, (formExporterDSN target module cfg).2
             = Some (errors_New ("invalid port " +:+ p))).
Proof.
  intros section [sec Hsec] Hcred. unfold formExporterDSN. cbv zeta.
  fold section. unfold ini.GetSection. rewrite Hsec.
  destruct (decide (ini.Key_String cfg section "user" = ""
                    \/ ini.Key_String cfg section "password" = "")) as [_|Hno];
    [|contradiction].
  destruct (decide (target = "")); [simpl; auto|].
  destruct (Split target ":" !! 1%nat) as [p|]; [|simpl; auto].
  destruct (ParseUint p); simpl; eauto.
Qed.

Lemma formExporterDSN_missing_credentials_witness :
  (formExporterDSN "db1" "tenant" {[ "client.tenant" := {[ "user" := "u" ]} ]}).1 = "" /\
  ((formExporterDSN "db1" "tenant" {[ "client.tenant" := {[ "user" := "u" ]} ]}).2
   = Some (errors_New ("no user or password specified under ["
                       +:+ (if decide ("tenant" = "" \/ "tenant" = "default") then "client"
                            else "client." +:+ "tenant")
                       +:+ "] in config")) \/
   exists p, (formExporterDSN "db1" "tenant" {[ "client.tenant" := {[ "user" := "u" ]} ]}).2
             = Some (errors_New ("invalid port " +:+ p))).
Proof.
  apply (formExporterDSN_missing_credentials "db1" "tenant"
           {[ "client.tenant" := {[ "user" := "u" ]} ]}).
  - exists {[ "user" := "u" ]}. reflexivity.
  - right. reflexivity.
Defined.

Lemma scanRows_app `{Platform} {St : Type}
    (parse : gmap string string -> St -> St * Res (option error))
    (cols : list string) (pre post : list RowEvent) :
  forall s s1,
    scanRows parse cols pre s = (s1, Ok None) ->
    scanRows parse cols (pre ++ post) s = scanRows parse cols post s1.
Proof.
  induction pre as [|ev pre IH]; intros s s1 Hpre; simpl in *.
  - injection Hpre as <-. reflexivity.
  - destruct ev as [columns|e]; [|discriminate].
    destruct (parse (normalize cols columns) s) as [s' r].
    destruct r as [[e|]|e|]; try discriminate.
    apply IH. exact Hpre.
Qed.

(** X4. The row loop hands the rows to the handler one after the other and
    stops at the first row for which the handler returns an error: that
    error is the result, with the state the handler left, and the rows
    after it are not handled, whatever they are. *)
Theorem scanRows_stops_at_handler_error `{Platform} {St : Type}
    (parse : gmap string string -> St -> St * Res (option error))
    (cols : list string) (pre : list RowEvent) (columns : list Value)
    (rest : list RowEvent) (s0 s s' : St) (e : error) :
  scanRows parse cols pre s0 = (s, Ok None) ->
  parse (normalize cols columns) s = (s', Ok (Some e)) ->
  scanRows parse cols (pre ++ Scanned columns :: rest) s0 = (s', Ok (Some e)).
Proof.
  intros Hpre Hrow. rewrite (scanRows_app parse cols pre _ s0 s Hpre).
  simpl. rewrite Hrow. reflexivity.
Qed.

Lemma scanRows_stops_at_handler_error_witness :
  scanRows (fun _ (n : nat) => (S n, if decide (n = 1%nat)
                                     then Ok (Some (errors_New "bad row")) else Ok None))
    ["ID"] ([Scanned [VInt64 1]] ++ Scanned [VInt64 2] :: [Scanned [VInt64 3]]) 0%nat
  = (2%nat, Ok (Some (errors_New "bad row"))).
Proof.
  apply (scanRows_stops_at_handler_error
           (fun _ (n : nat) => (S n, if decide (n = 1%nat)
                                     then Ok (Some (errors_New "bad row")) else Ok None))
           ["ID"] [Scanned [VInt64 1]] [VInt64 2] [Scanned [VInt64 3]]
           0%nat 1%nat 2%nat (errors_New "bad row")); reflexivity.
Defined.

(** X5. Only the second ping decides whether the database is up. When the
    first ping does not say that the database is closed, whatever else it
    answers, and the second ping fails, the scrape counts itself, sets
    [up] to 0 and the error gauge to 1, logs the error of the second ping,
    and runs no definition: nothing is sent and no scrape error is
    counted. *)
Theorem scrape_ping_failure `{Driver} (queryTimeout : string) (sched : list Metric)
    (e : Exporter) (w : World) (er : error) :
  says_closed (Ping (db e) 0) = false ->
  Ping (db e) 1 = Some er ->
  scrape queryTimeout sched e w
  = (mkCycle _
       (mkExporter _ (dsn e) (pinged (pinged (db e))) 0 1 (S (totalScrapes e))
          (scrapeErrors e))
       (log_Errorln (ErrPinging er) w) (Some er),
     Ok tt).
Proof.
  intros Hclosed Hping. unfold scrape, says_closed in *. simpl.
  destruct (Ping (db e) 0) as [er1|]; [rewrite Hclosed|]; simpl;
    rewrite Hping; reflexivity.
Qed.

Lemma scrape_ping_failure_witness :
  scrape "5" [sessionsA; sessionsB] (exporterOn downDB) emptyWorld
  = (mkCycle _
       (mkExporter _ (dsn (exporterOn downDB)) (pinged (pinged (db (exporterOn downDB))))
          0 1 (S (totalScrapes (exporterOn downDB))) (scrapeErrors (exporterOn downDB)))
       (log_Errorln (ErrPinging (lib_error "dm" "connection refused")) emptyWorld)
       (Some (lib_error "dm" "connection refused")),
     Ok tt).
Proof.
  apply (scrape_ping_failure "5" [sessionsA; sessionsB] (exporterOn downDB) emptyWorld
           (lib_error "dm" "connection refused")); reflexivity.
Defined.



(** X7. The error gauge after a cycle tells how the goroutine that assigned
    [err] last ended, not whether a definition failed: with the failing
    definition [sessionsA] and the succeeding [sessionsB], it is 0 when
    [sessionsB] runs last and 1 when [sessionsA] does, while one scrape
    error is counted and the same metrics are sent either way. *)
Theorem scrape_error_gauge_depends_on_order :
  error_gauge (exporter (scrape "5" [sessionsA; sessionsB] (exporterOn mixedDB) emptyWorld).1)
  = 0 /\
  error_gauge (exporter (scrape "5" [sessionsB; sessionsA] (exporterOn mixedDB) emptyWorld).1)
  = 1 /\
  scrapeErrors (exporter (scrape "5" [sessionsA; sessionsB] (exporterOn mixedDB) emptyWorld).1)
  = {[ "sessions" := 1%nat ]} /\
  scrapeErrors (exporter (scrape "5" [sessionsB; sessionsA] (exporterOn mixedDB) emptyWorld).1)
  = {[ "sessions" := 1%nat ]} /\
  ch (world (scrape "5" [sessionsA; sessionsB] (exporterOn mixedDB) emptyWorld).1)
  = ch (world (scrape "5" [sessionsB; sessionsA] (exporterOn mixedDB) emptyWorld).1).
Proof. repeat split; reflexivity. Qed.

(** ** Lower case, and what it means for the keys of a definition *)

Lemma ToLower_fixed (s : string) :
  (forall c, c ∈ list_ascii_of_string s -> is_upper c = false) -> ToLower s = s.
Proof.
  induction s as [|c s IH]; simpl; intros Hs; [reflexivity|].
  rewrite IH by (intros c' Hc'; apply Hs; right; exact Hc').
  unfold lower_byte. rewrite (Hs c) by left. reflexivity.
Qed.

Lemma Replace_absent (s : string) (old : ascii) (new : string) :
  (forall c, c ∈ list_ascii_of_string s -> c <> old) -> Replace s old new = s.
Proof.
  induction s as [|c s IH]; simpl; intros Hs; [reflexivity|].
  destruct (Ascii.eqb c old) eqn:Heq.
  - apply Ascii.eqb_eq in Heq. exfalso. apply (Hs c); [left | exact Heq].
  - rewrite IH by (intros c' Hc'; apply Hs; right; exact Hc'). reflexivity.
Qed.

Lemma length_append_string (s t : string) :
  String.length (s +:+ t) = (String.length s + String.length t)%nat.
Proof. induction s as [|c s IH]; simpl; [reflexivity | rewrite IH; reflexivity]. Qed.

Lemma Replace_length (s : string) (old : ascii) (new : string) :
  (String.length new <= 1)%nat ->
  (String.length (Replace s old new) <= String.length s)%nat.
Proof.
  intros Hnew. induction s as [|c s IH]; simpl; [lia|].
  destruct (Ascii.eqb c old); simpl.
  - rewrite length_append_string. lia.
  - lia.
Qed.

Lemma ToLower_length (s : string) : String.length (ToLower s) = String.length s.
Proof. induction s as [|c s IH]; simpl; [reflexivity | rewrite IH; reflexivity]. Qed.

Lemma isASCII_app (s t : string) :
  isASCII s = true -> isASCII t = true -> isASCII (s +:+ t) = true.
Proof.
  induction s as [|c s IH]; simpl; intros Hs Ht; [exact Ht|].
  apply andb_true_iff in Hs as [Hc Hs]. rewrite Hc. simpl. apply IH; assumption.
Qed.

Lemma isASCII_Replace (s : string) (old : ascii) (new : string) :
  isASCII s = true -> isASCII new = true -> isASCII (Replace s old new) = true.
Proof.
  induction s as [|c s IH]; simpl; intros Hs Hnew; [reflexivity|].
  apply andb_true_iff in Hs as [Hc Hs].
  destruct (Ascii.eqb c old).
  - apply isASCII_app; [exact Hnew | apply IH; assumption].
  - simpl. rewrite Hc. simpl. apply IH; assumption.
Qed.

Lemma lower_byte_ascii (c : ascii) :
  (N_of_ascii c <? 128)%N = true -> (N_of_ascii (lower_byte c) <? 128)%N = true.
Proof. destruct c as [[] [] [] [] [] [] [] []]; intros Hc; try exact Hc; reflexivity. Qed.

Lemma isASCII_ToLower (s : string) : isASCII s = true -> isASCII (ToLower s) = true.
Proof.
  induction s as [|c s IH]; simpl; intros Hs; [reflexivity|].
  apply andb_true_iff in Hs as [Hc Hs].
  rewrite (lower_byte_ascii c Hc). simpl. apply IH. exact Hs.
Qed.

(** X8. On names of ASCII bytes: a cleaned name is a name of ASCII bytes
    again, cleaning it once more changes nothing, and it is never longer
    than the name it was made from. *)
Theorem cleanName_idempotent (s : string) :
  isASCII s = true ->
  isASCII (cleanName s) = true /\
  cleanName (cleanName s) = cleanName s /\
  (String.length (cleanName s) <= String.length s)%nat.
Proof.
  intros Hascii. split; [|split].
  - unfold cleanName. apply isASCII_ToLower.
    repeat (apply isASCII_Replace; [|reflexivity]). exact Hascii.
  - pose proof (cleanName_chars s) as Hc.
    set (t := cleanName s) in *. unfold cleanName.
    rewrite (Replace_absent t " ") by (intros c H; apply Hc, H).
    rewrite (Replace_absent t "(") by (intros c H; apply Hc, H).
    rewrite (Replace_absent t ")") by (intros c H; apply Hc, H).
    rewrite (Replace_absent t "/") by (intros c H; apply Hc, H).
    rewrite (Replace_absent t "*") by (intros c H; apply Hc, H).
    apply ToLower_fixed. intros c H. apply Hc, H.
  - unfold cleanName. rewrite ToLower_length.
    pose proof (Replace_length s " " "_") as H1.
    pose proof (Replace_length (Replace s " " "_") "(" "") as H2.
    pose proof (Replace_length (Replace (Replace s " " "_") "(" "") ")" "") as H3.
    pose proof (Replace_length (Replace (Replace (Replace s " " "_") "(" "") ")" "")
                  "/" "") as H4.
    pose proof (Replace_length
                  (Replace (Replace (Replace (Replace s " " "_") "(" "") ")" "") "/" "")
                  "*" "") as H5.
    simpl in *. lia.
Qed.

Lemma cleanName_idempotent_witness :
  isASCII (cleanName "My (Weird) Name/*") = true /\
  cleanName (cleanName "My (Weird) Name/*") = cleanName "My (Weird) Name/*" /\
  (String.length (cleanName "My (Weird) Name/*") <= String.length "My (Weird) Name/*")%nat.
Proof. apply (cleanName_idempotent "My (Weird) Name/*"). reflexivity. Defined.

(** X9. [GetMetricType] never consults an entry of [metricsType] whose key
    holds an upper-case ASCII letter: with or without the entry, and
    whatever its token, the result is the same. *)
Theorem GetMetricType_mixed_case_key (col key tok : string)
    (metricsType : gmap string string) :
  ToLower key <> key ->
  GetMetricType col (<[key := tok]> metricsType) = GetMetricType col metricsType /\
  GetMetricType col (delete key metricsType) = GetMetricType col metricsType.
Proof. intros Hkey. apply GetMetricType_other_key. exact Hkey. Qed.

Lemma GetMetricType_mixed_case_key_witness :
  GetMetricType "value" (<["Value" := "histogram"]> ∅) = GetMetricType "value" ∅ /\
  GetMetricType "value" (delete "Value" ∅) = GetMetricType "value" ∅.
Proof.
  apply (GetMetricType_mixed_case_key "value" "Value" "histogram" ∅). discriminate.
Defined.

(** ** What never becomes a sample *)

Lemma ScrapeGenericValues_emits `{Platform} (queryTimeout : string) (db : DB)
    (context : string) (labels : list string) (metricsDesc metricsType : gmap string string)
    (fieldToAppend : string) (ignoreZeroResult : bool) (request : string) (w : World) :
  exists new,
    ch (ScrapeGenericValues queryTimeout db context labels metricsDesc metricsType
          fieldToAppend ignoreZeroResult request w).1 = ch w ++ new /\
    Forall (fun s => exists timeout row kv,
              Atoi queryTimeout = Some timeout /\
              row ∈ rowsOf (QueryContext db timeout request) /\
              kv ∈ map_to_list metricsDesc /\
              sampleFor context labels metricsType fieldToAppend row kv s) new.
Proof.
  unfold ScrapeGenericValues.
  destruct (GeneratePrometheusMetrics queryTimeout db
              (genericParser context labels metricsDesc metricsType fieldToAppend)
              request (w, 0)) as [[w' metricsCount] r] eqn:Hrun.
  apply GeneratePrometheusMetrics_emits in Hrun as (new & Hch & _ & Hall). simpl in Hch.
  exists new. split; [|exact Hall].
  destruct r as [[e|]|e|]; simpl; try exact Hch.
  destruct (negb ignoreZeroResult && (metricsCount =? 0)%Z); exact Hch.
Qed.

Lemma rowsOf_inv `{Platform} (r : QueryResult) (row : gmap string string) :
  row ∈ rowsOf r ->
  exists columns, Scanned columns ∈ events r /\ row = normalize (cols r) columns.
Proof.
  unfold rowsOf. intros Hrow. apply list_elem_of_omap in Hrow as (ev & Hev & Hsome).
  destruct ev as [columns|e]; [|discriminate].
  injection Hsome as <-. exists columns. split; [exact Hev | reflexivity].
Qed.

Lemma normalize_key_lower `{Platform} (cols : list string) (columns : list Value)
    (k : string) :
  is_Some (normalize cols columns !! k) -> ToLower k = k.
Proof.
  intros Hk. apply elem_of_dom in Hk. unfold normalize in Hk.
  rewrite rowMap_dom, dom_empty_L, (right_id_L ∅ (∪)) in Hk.
  apply elem_of_list_to_set, list_elem_of_fmap in Hk as (c & -> & _).
  apply ToLower_idem.
Qed.

Lemma normalize_upper_case_key `{Platform} (cols : list string) (columns : list Value)
    (k : string) :
  ToLower k <> k -> row_get (normalize cols columns) k = "".
Proof.
  intros Hk. unfold row_get.
  destruct (normalize cols columns !! k) as [v|] eqn:Hlook; [|reflexivity].
  exfalso. apply Hk. apply (normalize_key_lower cols columns). rewrite Hlook. eauto.
Qed.

(** X10. The rows handed to the row handler have lower-case keys only, so a
    label, a value column or a name field written with an upper-case ASCII
    letter reads as the empty string in every row. The empty string is no
    float: a definition all of whose value columns are written with an
    upper-case letter never sends a metric. *)
Theorem ScrapeGenericValues_upper_case_columns `{Platform} (queryTimeout : string)
    (db : DB) (context : string) (labels : list string)
    (metricsDesc metricsType : gmap string string) (fieldToAppend : string)
    (ignoreZeroResult : bool) (request : string) (w : World) :
  ParseFloat "" = None ->
  (forall k, is_Some (metricsDesc !! k) -> ToLower k <> k) ->
  (forall timeout row k,
     row ∈ rowsOf (QueryContext db timeout request) -> ToLower k <> k ->
     row_get row k = "") /\
  ch (ScrapeGenericValues queryTimeout db context labels metricsDesc metricsType
        fieldToAppend ignoreZeroResult request w).1 = ch w.
Proof.
  intros Hempty Hupper.
  assert (Hrows : forall timeout row k,
            row ∈ rowsOf (QueryContext db timeout request) -> ToLower k <> k ->
            row_get row k = "").
  { intros timeout row k Hrow Hk. apply rowsOf_inv in Hrow as (columns & _ & ->).
    apply normalize_upper_case_key, Hk. }
  split; [exact Hrows|].
  destruct (ScrapeGenericValues_emits queryTimeout db context labels metricsDesc
              metricsType fieldToAppend ignoreZeroResult request w) as (new & -> & Hall).
  destruct new as [|s new]; [apply app_nil_r|]. exfalso.
  apply Forall_cons in Hall as [(timeout & row & [metric metricHelp] & _ & Hrow & Hkv & Hs) _].
  destruct Hs as (value & _ & Hparse & _). simpl in Hparse.
  rewrite (Hrows timeout row metric Hrow) in Hparse.
  - change (TrimSpace "") with "" in Hparse. congruence.
  - apply Hupper. apply elem_of_map_to_list in Hkv. rewrite Hkv. eauto.
Qed.

Lemma ScrapeGenericValues_upper_case_columns_witness :
  (forall timeout row k,
     row ∈ rowsOf (QueryContext (testDB twoRows) timeout "select id, value from t") ->
     ToLower k <> k -> row_get row k = "") /\
  ch (ScrapeGenericValues "5" (testDB twoRows) "sessions" [] {[ "VALUE" := "help" ]} ∅ ""
        false "select id, value from t" emptyWorld).1 = ch emptyWorld.
Proof.
  apply (ScrapeGenericValues_upper_case_columns "5" (testDB twoRows) "sessions" []
           {[ "VALUE" := "help" ]} ∅ "" false "select id, value from t" emptyWorld).
  - reflexivity.
  - intros k [v Hk]. apply lookup_singleton_Some in Hk as [<- _]. discriminate.
Defined.

Lemma rowMap_lookup_origin `{Platform} (cols : list string) (columns : list Value)
    (k v : string) :
  forall (i : nat) (m : gmap string string),
    rowMap cols i columns m !! k = Some v ->
    m !! k = Some v \/ exists j : nat, v = Sprint (default VNil (columns !! j)).
Proof.
  induction cols as [|c cols IH]; intros i m Hlook; simpl in Hlook; [left; exact Hlook|].
  apply IH in Hlook as [Hm|Hj]; [|right; exact Hj].
  apply lookup_insert_Some in Hm as [[_ <-]|[_ Hm]]; [right; eauto | left; exact Hm].
Qed.

Lemma TrimSpace_head (c : ascii) (r : string) :
  is_space c = false -> exists r', TrimSpace (String c r) = String c r'.
Proof.
  intros Hc. unfold TrimSpace. simpl. rewrite Hc. simpl.
  destruct (trim_right r) as [|c' r']; [rewrite Hc|]; eauto.
Qed.

Lemma Sprint_VBytes_head `{Platform} (bs : list ascii) :
  exists r, Sprint (VBytes bs) = String "[" r.
Proof. eexists. reflexivity. Qed.

(** X11. A null is printed as [<nil>] and a [[]byte] as a list of numbers in
    brackets, and neither is a float: a result set whose values all arrive
    as null or as [[]byte] sends no metric, whatever the definition. *)
Theorem ScrapeGenericValues_null_and_bytes `{Platform} (queryTimeout : string)
    (db : DB) (context : string) (labels : list string)
    (metricsDesc metricsType : gmap string string) (fieldToAppend : string)
    (ignoreZeroResult : bool) (request : string) (w : World) :
  ParseFloat "" = None ->
  (forall s, ParseFloat (String "<" s) = None) ->
  (forall s, ParseFloat (String "[" s) = None) ->
  (forall timeout columns,
     Scanned columns ∈ events (QueryContext db timeout request) ->
     Forall (fun v => v = VNil \/ exists bs, v = VBytes bs) columns) ->
  ch (ScrapeGenericValues queryTimeout db context labels metricsDesc metricsType
        fieldToAppend ignoreZeroResult request w).1 = ch w.
Proof.
  intros Hempty Hnil Hbytes Hvalues.
  destruct (ScrapeGenericValues_emits queryTimeout db context labels metricsDesc
              metricsType fieldToAppend ignoreZeroResult request w) as (new & -> & Hall).
  destruct new as [|s new]; [apply app_nil_r|]. exfalso.
  apply Forall_cons in Hall as [(timeout & row & [metric metricHelp] & _ & Hrow & _ & Hs) _].
  destruct Hs as (value & _ & Hparse & _). simpl in Hparse.
  apply rowsOf_inv in Hrow as (columns & Hcolumns & ->).
  specialize (Hvalues timeout columns Hcolumns).
  unfold row_get in Hparse.
  destruct (normalize (cols (QueryContext db timeout request)) columns !! metric)
    as [v|] eqn:Hlook; simpl in Hparse.
  - apply rowMap_lookup_origin in Hlook as [Hno|[j ->]];
      [rewrite lookup_empty in Hno; discriminate|].
    assert (Hv : default VNil (columns !! j) = VNil
                 \/ exists bs, default VNil (columns !! j) = VBytes bs).
    { destruct (columns !! j) as [v|] eqn:Hj; simpl; [|left; reflexivity].
      rewrite Forall_forall in Hvalues. apply Hvalues.
      apply list_elem_of_lookup. eauto. }
    destruct Hv as [Hv|[bs Hv]]; rewrite Hv in Hparse.
    + change (TrimSpace (Sprint VNil)) with "<nil>" in Hparse.
      rewrite Hnil in Hparse. discriminate.
    + destruct (Sprint_VBytes_head bs) as [r Hr]. rewrite Hr in Hparse.
      destruct (TrimSpace_head "[" r eq_refl) as [r' Hr'].
      rewrite Hr', Hbytes in Hparse. discriminate.
  - change (TrimSpace "") with "" in Hparse. congruence.
Qed.

Lemma ScrapeGenericValues_null_and_bytes_witness :
  ch (ScrapeGenericValues "5"
        (testDB {| deadline_exceeded := false; query_err := None; cols := ["VALUE"];
                   events := [Scanned [VBytes ["4"%char; "2"%char]]; Scanned [VNil]];
                   rows_err := None |})
        "sessions" [] {[ "value" := "help" ]} ∅ "" false "select value from t"
        emptyWorld).1
  = ch emptyWorld.
Proof.
  apply (ScrapeGenericValues_null_and_bytes "5"
           (testDB {| deadline_exceeded := false; query_err := None; cols := ["VALUE"];
                      events := [Scanned [VBytes ["4"%char; "2"%char]]; Scanned [VNil]];
                      rows_err := None |})
           "sessions" [] {[ "value" := "help" ]} ∅ "" false "select value from t"
           emptyWorld).
  - reflexivity.
  - intros s. reflexivity.
  - intros s. reflexivity.
  - intros timeout columns Hin. simpl in Hin.
    apply elem_of_cons in Hin as [Heq|Hin].
    { injection Heq as ->. constructor; [right; eauto | constructor]. }
    apply elem_of_cons in Hin as [Heq|Hin].
    { injection Heq as ->. constructor; [left; reflexivity | constructor]. }
    apply elem_of_nil in Hin. contradiction.
Defined.

(** ** The row loop and the sample count *)



Lemma wrap_int_add_l (a b : Z) : wrap_int (wrap_int a + b) = wrap_int (a + b).
Proof.
  unfold wrap_int. f_equal.
  replace ((a + 2 ^ 63) mod 2 ^ 64 - 2 ^ 63 + b + 2 ^ 63)
    with ((a + 2 ^ 63) mod 2 ^ 64 + b) by ring.
  rewrite Z.add_mod_idemp_l by lia. f_equal. ring.
Qed.

Lemma wrap_int_nonzero (n : Z) : 0 < n < 2 ^ 64 -> wrap_int n <> 0.
Proof.
  intros Hn. unfold wrap_int.
  destruct (Z_lt_ge_dec n (2 ^ 63)) as [Hlt|Hge].
  - rewrite Z.mod_small by lia. lia.
  - replace (n + 2 ^ 63) with ((n - 2 ^ 63) + 1 * 2 ^ 64) by ring.
    rewrite Z.mod_add by lia. rewrite Z.mod_small by lia. lia.
Qed.

Section Counting.
Context `{Platform}.
Variables (context : string) (labels : list string)
  (metricsDesc metricsType : gmap string string) (fieldToAppend : string).

Lemma parseColumns_count (row : gmap string string) (kvs : list (string * string)) :
  forall st st' r (n : Z),
    parseColumns context labels metricsType fieldToAppend row kvs st = (st', r) ->
    st.2 = wrap_int n ->
    exists new,
      ch st'.1 = ch st.1 ++ new /\ st'.2 = wrap_int (n + Z.of_nat (length new)).
Proof.
  induction kvs as [|[metric metricHelp] kvs IH]; intros st st' r n Hrun Hn;
    simpl in Hrun.
  - injection Hrun as <- <-. exists []. rewrite app_nil_r, Z.add_0_r. auto.
  - destruct (ParseFloat (TrimSpace (row_get row metric))) as [value|].
    + destruct (metricDesc context labels fieldToAppend row metric metricHelp) as [d lvs].
      destruct (GetMetricType metric metricsType) as [valueType|e|];
        try (injection Hrun as <- <-; exists []; rewrite app_nil_r, Z.add_0_r; auto).
      unfold MustNewConstMetric in Hrun.
      destruct (NewConstMetric_err (fqName d) (help d) (variableLabels d) lvs);
        try (injection Hrun as <- <-; exists []; rewrite app_nil_r, Z.add_0_r; auto).
      apply (IH _ _ _ (n + 1)) in Hrun as (new & Hch & Hcnt).
      * exists (mkConstMetric _ d valueType value lvs :: new). simpl in *. split.
        -- rewrite Hch, <- app_assoc. reflexivity.
        -- rewrite Hcnt. f_equal. lia.
      * simpl. rewrite Hn. apply wrap_int_add_l.
    + apply (IH _ _ _ n) in Hrun as (new & Hch & Hcnt); [|exact Hn].
      exists new. simpl in *. auto.
Qed.

Lemma scanRows_count (cols : list string) (evs : list RowEvent) :
  forall st st' r (n : Z),
    scanRows (genericParser context labels metricsDesc metricsType fieldToAppend)
      cols evs st = (st', r) ->
    st.2 = wrap_int n ->
    exists new,
      ch st'.1 = ch st.1 ++ new /\ st'.2 = wrap_int (n + Z.of_nat (length new)).
Proof.
  induction evs as [|ev evs IH]; intros st st' r n Hrun Hn; simpl in Hrun.
  - injection Hrun as <- <-. exists []. rewrite app_nil_r, Z.add_0_r. auto.
  - destruct ev as [columns|e];
      [|injection Hrun as <- <-; exists []; rewrite app_nil_r, Z.add_0_r; auto].
    destruct (genericParser context labels metricsDesc metricsType fieldToAppend
                (normalize cols columns) st) as [st1 r1] eqn:Hrow.
    unfold genericParser in Hrow.
    apply (parseColumns_count _ _ _ _ _ n) in Hrow as (new1 & Hch1 & Hcnt1); [|exact Hn].
    simpl in Hch1.
    destruct r1 as [[e|]|e|]; try (injection Hrun as <- <-; exists new1; auto).
    apply (IH _ _ _ (n + Z.of_nat (length new1))) in Hrun as (new2 & Hch2 & Hcnt2);
      [|exact Hcnt1].
    exists (new1 ++ new2). split.
    + rewrite Hch2, Hch1, <- app_assoc. reflexivity.
    + rewrite Hcnt2, length_app. f_equal. lia.
Qed.

End Counting.

(** X13. [metricsCount] is the number of metrics the scrape has sent, in
    64-bit arithmetic. So a scrape whose query and row loop succeed and
    that has sent at least one metric (and fewer than 2^64) returns nil
    whether or not the definition ignores a zero result. *)
Theorem ScrapeGenericValues_count `{Platform} (queryTimeout : string) (db : DB)
    (context : string) (labels : list string) (metricsDesc metricsType : gmap string string)
    (fieldToAppend : string) (ignoreZeroResult : bool) (request : string)
    (w : World) (st' : World * Z) (r : Res (option error)) :
  GeneratePrometheusMetrics queryTimeout db
    (genericParser context labels metricsDesc metricsType fieldToAppend) request (w, 0)
    = (st', r) ->
  exists new,
    ch st'.1 = ch w ++ new /\
    st'.2 = wrap_int (Z.of_nat (length new)) /\
    (r = Ok None -> 0 < Z.of_nat (length new) < 2 ^ 64 ->
     ScrapeGenericValues queryTimeout db context labels metricsDesc metricsType
       fieldToAppend ignoreZeroResult request w = (st'.1, Ok None)).
Proof.
  intros Hrun.
  assert (exists new, ch st'.1 = ch w ++ new
                      /\ st'.2 = wrap_int (Z.of_nat (length new))) as (new & Hch & Hcnt).
  { unfold GeneratePrometheusMetrics in Hrun.
    destruct (Atoi queryTimeout) as [timeout|];
      [|injection Hrun as <- <-; exists []; rewrite app_nil_r; auto].
    destruct (deadline_exceeded (QueryContext db timeout request));
      [injection Hrun as <- <-; exists []; rewrite app_nil_r; auto|].
    destruct (query_err (QueryContext db timeout request));
      [injection Hrun as <- <-; exists []; rewrite app_nil_r; auto|].
    apply (scanRows_count _ _ _ _ _ _ _ _ _ _ 0) in Hrun as (new & Hch & Hcnt);
      [|reflexivity].
    exists new. auto. }
  exists new. split; [exact Hch|]. split; [exact Hcnt|].
  intros -> Hlen. unfold ScrapeGenericValues. rewrite Hrun.
  destruct st' as [w' metricsCount]. simpl in *.
  pose proof (wrap_int_nonzero _ Hlen) as Hnz. rewrite <- Hcnt in Hnz.
  apply Z.eqb_neq in Hnz. rewrite Hnz, andb_false_r. reflexivity.
Qed.

Lemma ScrapeGenericValues_count_witness :
  exists new,
    ch (mkWorld testPlatform
          [mkConstMetric testPlatform (NewDesc "dmdb_sessions_value" "help" ["id"]) GaugeValue 7 ["a b"]]
          [ErrUnableToConvert "value" "help" "<nil>"] 2, 1).1 = ch emptyWorld ++ new /\
    (mkWorld testPlatform
          [mkConstMetric testPlatform (NewDesc "dmdb_sessions_value" "help" ["id"]) GaugeValue 7 ["a b"]]
          [ErrUnableToConvert "value" "help" "<nil>"] 2, 1).2
    = wrap_int (Z.of_nat (length new)) /\
    (Ok (@None error) = Ok None -> 0 < Z.of_nat (length new) < 2 ^ 64 ->
     ScrapeGenericValues "5" (testDB twoRows) "sessions" ["id"] {[ "value" := "help" ]} ∅ ""
       false "select id, value from t" emptyWorld
     = ((mkWorld testPlatform
          [mkConstMetric testPlatform (NewDesc "dmdb_sessions_value" "help" ["id"]) GaugeValue 7 ["a b"]]
          [ErrUnableToConvert "value" "help" "<nil>"] 2, 1).1, Ok None)).
Proof.
  apply (@ScrapeGenericValues_count testPlatform "5" (testDB twoRows) "sessions" ["id"]
           {[ "value" := "help" ]} ∅ "" false "select id, value from t" emptyWorld
           (mkWorld testPlatform
              [mkConstMetric testPlatform (NewDesc "dmdb_sessions_value" "help" ["id"]) GaugeValue 7
                 ["a b"]]
              [ErrUnableToConvert "value" "help" "<nil>"] 2, 1) (Ok None)).
  reflexivity.
Defined.

(** X14. An error does not take back what was sent: when a scan fails after
    some rows have been handled, [ScrapeGenericValues] returns the error of
    the scan, and the metrics of the rows before it stay sent. *)
Theorem ScrapeGenericValues_partial `{Platform} (queryTimeout : string) (timeout : Z)
    (db : DB) (context : string) (labels : list string)
    (metricsDesc metricsType : gmap string string) (fieldToAppend : string)
    (ignoreZeroResult : bool) (request : string) (w : World)
    (pre post : list RowEvent) (e : error) (st1 : World * Z) :
  Atoi queryTimeout = Some timeout ->
  deadline_exceeded (QueryContext db timeout request) = false ->
  query_err (QueryContext db timeout request) = None ->
  events (QueryContext db timeout request) = pre ++ ScanFailed e :: post ->
  scanRows (genericParser context labels metricsDesc metricsType fieldToAppend)
    (cols (QueryContext db timeout request)) pre (w, 0) = (st1, Ok None) ->
  ScrapeGenericValues queryTimeout db context labels metricsDesc metricsType
    fieldToAppend ignoreZeroResult request w = (st1.1, Ok (Some e)).
Proof.
  intros Htimeout Hdl Hq Hev Hpre.
  unfold ScrapeGenericValues, GeneratePrometheusMetrics.
  rewrite Htimeout, Hdl, Hq, Hev.
  rewrite (scanRows_app _ _ pre _ _ _ Hpre). simpl.
  destruct st1 as [w1 n]. reflexivity.
Qed.

Lemma ScrapeGenericValues_partial_witness :
  ScrapeGenericValues "5"
    (testDB {| deadline_exceeded := false; query_err := None; cols := ["ID"; "VALUE"];
               events := [Scanned [VString "a b"; VInt64 7]]
                         ++ ScanFailed (lib_error "dm" "connection reset") :: [];
               rows_err := None |})
    "sessions" ["id"] {[ "value" := "help" ]} ∅ "" false "select id, value from t" emptyWorld
  = ((mkWorld testPlatform
        [mkConstMetric testPlatform (NewDesc "dmdb_sessions_value" "help" ["id"]) GaugeValue 7 ["a b"]]
        [] 1, 1).1,
     Ok (Some (lib_error "dm" "connection reset"))).
Proof.
  apply (@ScrapeGenericValues_partial testPlatform "5" 5
           (testDB {| deadline_exceeded := false; query_err := None; cols := ["ID"; "VALUE"];
                      events := [Scanned [VString "a b"; VInt64 7]]
                                ++ ScanFailed (lib_error "dm" "connection reset") :: [];
                      rows_err := None |})
           "sessions" ["id"] {[ "value" := "help" ]} ∅ "" false "select id, value from t"
           emptyWorld [Scanned [VString "a b"; VInt64 7]] []
           (lib_error "dm" "connection reset")); reflexivity.
Defined.

(** ** The scrape as a whole *)

Lemma scrapeTask_frame `{Platform} (queryTimeout : string) (metric : Metric) (c : Cycle) :
  dsn (exporter (scrapeTask queryTimeout metric c).1) = dsn (exporter c) /\
  db (exporter (scrapeTask queryTimeout metric c).1) = db (exporter c) /\
  up (exporter (scrapeTask queryTimeout metric c).1) = up (exporter c) /\
  error_gauge (exporter (scrapeTask queryTimeout metric c).1) = error_gauge (exporter c) /\
  totalScrapes (exporter (scrapeTask queryTimeout metric c).1) = totalScrapes (exporter c) /\
  (exists new, ch (world (scrapeTask queryTimeout metric c).1) = ch (world c) ++ new) /\
  (scrapeErrors (exporter (scrapeTask queryTimeout metric c).1) = scrapeErrors (exporter c) \/
   scrapeErrors (exporter (scrapeTask queryTimeout metric c).1)
   = <[Context metric := S (default 0%nat (scrapeErrors (exporter c) !! Context metric))]>
       (scrapeErrors (exporter c))).
Proof.
  unfold scrapeTask.
  destruct (ScrapeMetric_appends queryTimeout (db (exporter c)) metric
              (checkDefinition metric (world c))) as [new Hnew].
  rewrite checkDefinition_ch in Hnew.
  destruct (ScrapeMetric queryTimeout (db (exporter c)) metric
              (checkDefinition metric (world c))) as [w3 r].
  simpl in Hnew.
  destruct r as [[e|]|e|]; simpl; repeat split; eauto.
Qed.

Lemma runTasks_frame `{Platform} (queryTimeout : string) (sched : list Metric) :
  forall c : Cycle,
    dsn (exporter (runTasks queryTimeout sched c).1) = dsn (exporter c) /\
    db (exporter (runTasks queryTimeout sched c).1) = db (exporter c) /\
    up (exporter (runTasks queryTimeout sched c).1) = up (exporter c) /\
    error_gauge (exporter (runTasks queryTimeout sched c).1) = error_gauge (exporter c) /\
    totalScrapes (exporter (runTasks queryTimeout sched c).1) = totalScrapes (exporter c) /\
    (exists new, ch (world (runTasks queryTimeout sched c).1) = ch (world c) ++ new) /\
    (forall context, exists k : nat,
       (k <= length (filter (fun m => Context m = context) sched))%nat /\
       default 0%nat (scrapeErrors (exporter (runTasks queryTimeout sched c).1) !! context)
       = (default 0%nat (scrapeErrors (exporter c) !! context) + k)%nat) /\
    (forall context, context ∉ Context <$> sched ->
       scrapeErrors (exporter (runTasks queryTimeout sched c).1) !! context
       = scrapeErrors (exporter c) !! context).
Proof.
  induction sched as [|metric rest IH]; intros c.
  - simpl. repeat split; try reflexivity.
    + exists []. rewrite app_nil_r. reflexivity.
    + intros context. exists 0%nat. split; [lia|]. rewrite Nat.add_0_r. reflexivity.
  - destruct (scrapeTask_frame queryTimeout metric c)
      as (Hdsn & Hdb & Hup & Herr & Htot & [new1 Hch] & Hcnt).
    assert (Hstep : forall context, exists k : nat,
      (k <= length (filter (fun m => Context m = context) [metric]))%nat /\
      default 0%nat (scrapeErrors (exporter (scrapeTask queryTimeout metric c).1) !! context)
      = (default 0%nat (scrapeErrors (exporter c) !! context) + k)%nat).
    { intros context. destruct Hcnt as [->| ->].
      - exists 0%nat. split; [lia|]. rewrite Nat.add_0_r. reflexivity.
      - destruct (decide (Context metric = context)) as [<-|Hne].
        + exists 1%nat. split.
          * rewrite filter_cons_True by reflexivity. simpl. lia.
          * rewrite lookup_insert_eq. simpl. lia.
        + exists 0%nat. split; [lia|].
          rewrite lookup_insert_ne by exact Hne. rewrite Nat.add_0_r. reflexivity. }
    assert (Hother : forall context, context <> Context metric ->
      scrapeErrors (exporter (scrapeTask queryTimeout metric c).1) !! context
      = scrapeErrors (exporter c) !! context).
    { intros context Hne. destruct Hcnt as [->| ->]; [reflexivity|].
      apply lookup_insert_ne. congruence. }
    assert (Hlen : forall context,
      length (filter (fun m => Context m = context) (metric :: rest))
      = (length (filter (fun m => Context m = context) [metric])
         + length (filter (fun m => Context m = context) rest))%nat).
    { intros context. change (metric :: rest) with ([metric] ++ rest).
      rewrite filter_app, length_app. reflexivity. }
    simpl runTasks.
    destruct (scrapeTask queryTimeout metric c) as [c1 r1]. simpl in *.
    destruct r1 as [u|p|].
    + destruct (IH c1) as (Hdsn' & Hdb' & Hup' & Herr' & Htot' & [new2 Hch'] & Hcnt' & Hoth').
      repeat split; try congruence.
      * exists (new1 ++ new2). rewrite Hch', Hch, <- app_assoc. reflexivity.
      * intros context. destruct (Hstep context) as (k1 & Hk1 & Heq1).
        destruct (Hcnt' context) as (k2 & Hk2 & Heq2).
        exists (k1 + k2)%nat. rewrite Hlen. split; [lia|]. rewrite Heq2, Heq1. lia.
      * intros context Hnotin. apply not_elem_of_cons in Hnotin.
        destruct Hnotin as [Hne Hnotin]. rewrite (Hoth' context Hnotin).
        apply Hother. exact Hne.
    + simpl. repeat split; try congruence.
      * exists new1. exact Hch.
      * intros context. destruct (Hstep context) as (k1 & Hk1 & Heq1).
        exists k1. rewrite Hlen. split; [lia|exact Heq1].
      * intros context Hnotin. apply not_elem_of_cons in Hnotin.
        apply Hother. apply Hnotin.
    + simpl. repeat split; try congruence.
      * exists new1. exact Hch.
      * intros context. destruct (Hstep context) as (k1 & Hk1 & Heq1).
        exists k1. rewrite Hlen. split; [lia|exact Heq1].
      * intros context Hnotin. apply not_elem_of_cons in Hnotin.
        apply Hother. apply Hnotin.
Qed.

Lemma runTasks_app `{Platform} (queryTimeout : string) (pre post : list Metric) :
  forall c c1 : Cycle,
    runTasks queryTimeout pre c = (c1, Ok tt) ->
    runTasks queryTimeout (pre ++ post) c = runTasks queryTimeout post c1.
Proof.
  induction pre as [|metric pre IH]; intros c c1 Hpre; simpl in *.
  - injection Hpre as <-. reflexivity.
  - destruct (scrapeTask queryTimeout metric c) as [c' r].
    destruct r as [u|p|]; try discriminate.
    apply IH. exact Hpre.
Qed.

(** What [scrape] does to the exporter and the world between its first
    statement and the goroutines: the cycle the goroutines start from, or
    the cycle and result [scrape] ends with before it starts any. *)
Lemma scrape_cases `{Driver} (queryTimeout : string) (sched : list Metric)
    (e : Exporter) (w : World) :
  (exists er d,
     scrape queryTimeout sched e w
     = (mkCycle _ (mkExporter _ (dsn e) d 0 1 (S (totalScrapes e)) (scrapeErrors e))
          (log_Errorln (ErrPinging er) w) (Some er), Ok tt)) \/
  (exists er p,
     scrape queryTimeout sched e w
     = (mkCycle _ (mkExporter _ (dsn e) (pinged (db e)) (up e) 1 (S (totalScrapes e))
                     (scrapeErrors e))
          (log_Errorln (ErrConnecting (dsn e)) w) (Some er), Panic p)) \/
  (exists d,
     scrape queryTimeout sched e w
     = match runTasks queryTimeout sched
               (mkCycle _ (mkExporter _ (dsn e) d 1 (error_gauge e) (S (totalScrapes e))
                             (scrapeErrors e)) w None) with
       | (c, Ok _) => (scrape_deferred c, Ok tt)
       | (c, r) => (c, r)
       end).
Proof.
  unfold scrape. simpl.
  destruct (Ping (db e) 0) as [er|].
  - destruct (Contains (Error er) "sql: database is closed").
    + unfold connect. simpl. destruct (sql_Open (dsn e)) as [d|p]; simpl.
      * destruct (Ping d 0) as [er'|].
        -- left. exists er', (pinged d). reflexivity.
        -- right. right. exists (pinged d). reflexivity.
      * right. left. exists er, p. reflexivity.
    + simpl. destruct (Ping (db e) 1) as [er'|].
      * left. exists er', (pinged (pinged (db e))). reflexivity.
      * right. right. exists (pinged (pinged (db e))). reflexivity.
  - simpl. destruct (Ping (db e) 1) as [er'|].
    + left. exists er', (pinged (pinged (db e))). reflexivity.
    + right. right. exists (pinged (pinged (db e))). reflexivity.
Qed.

(** X15. Whatever the database and the definitions do, [scrape] counts
    itself once and keeps the connection string; it takes nothing from the
    channel; it raises the error counter of a context by at most the
    number of definitions of that context, never lowers one, and leaves
    the counter of a context no definition has untouched. *)
Theorem scrape_invariants `{Driver} (queryTimeout : string) (sched : list Metric)
    (e : Exporter) (w : World) :
  totalScrapes (exporter (scrape queryTimeout sched e w).1) = S (totalScrapes e) /\
  dsn (exporter (scrape queryTimeout sched e w).1) = dsn e /\
  (exists new, ch (world (scrape queryTimeout sched e w).1) = ch w ++ new) /\
  (forall context, exists k : nat,
     (k <= length (filter (fun m => Context m = context) sched))%nat /\
     default 0%nat (scrapeErrors (exporter (scrape queryTimeout sched e w).1) !! context)
     = (default 0%nat (scrapeErrors e !! context) + k)%nat) /\
  (forall context, context ∉ Context <$> sched ->
     scrapeErrors (exporter (scrape queryTimeout sched e w).1) !! context
     = scrapeErrors e !! context).
Proof.
  assert (Hnone : forall context, exists k : nat,
    (k <= length (filter (fun m => Context m = context) sched))%nat /\
    default 0%nat (scrapeErrors e !! context)
    = (default 0%nat (scrapeErrors e !! context) + k)%nat).
  { intros context. exists 0%nat. split; [lia|]. rewrite Nat.add_0_r. reflexivity. }
  destruct (scrape_cases queryTimeout sched e w)
    as [(er & d & ->)|[(er & p & ->)|(d & ->)]]; simpl.
  - repeat split; auto. exists []. rewrite app_nil_r. reflexivity.
  - repeat split; auto. exists []. rewrite app_nil_r. reflexivity.
  - destruct (runTasks_frame queryTimeout sched
                (mkCycle _ (mkExporter _ (dsn e) d 1 (error_gauge e) (S (totalScrapes e))
                              (scrapeErrors e)) w None))
      as (Hdsn & _ & _ & _ & Htot & Hch & Hcnt & Hoth).
    destruct (runTasks queryTimeout sched _) as [c r]. simpl in *.
    destruct r as [u|p|]; simpl; repeat split; auto.
Qed.

(** X16. The error gauge after a scrape whose goroutines all end tells how
    the one that ran last ended, and nothing about the others: it is 1
    when the scrape of the last definition returned an error and 0 when it
    returned none, whatever the definitions before it did, and whatever
    the first ping answered short of a closed database. *)
Theorem scrape_error_gauge_last `{Driver} (queryTimeout : string) (pre : list Metric)
    (last : Metric) (e : Exporter) (w : World) (c1 : Cycle) (w3 : World)
    (r : option error) :
  says_closed (Ping (db e) 0) = false ->
  Ping (db e) 1 = None ->
  runTasks queryTimeout pre
    (mkCycle _ (set_up 1 (set_db (pinged (pinged (db e))) (inc_totalScrapes e))) w None)
    = (c1, Ok tt) ->
  ScrapeMetric queryTimeout (db (exporter c1)) last (checkDefinition last (world c1))
    = (w3, Ok r) ->
  (scrape queryTimeout (pre ++ [last]) e w).2 = Ok tt /\
  error_gauge (exporter (scrape queryTimeout (pre ++ [last]) e w).1)
  = match r with Some _ => 1 | None => 0 end.
Proof.
  intros Hclosed Hping Hpre Hlast.
  assert (Hrun : scrape queryTimeout (pre ++ [last]) e w
                 = match runTasks queryTimeout (pre ++ [last])
                           (mkCycle _ (set_up 1 (set_db (pinged (pinged (db e)))
                                                   (inc_totalScrapes e))) w None) with
                   | (c, Ok _) => (scrape_deferred c, Ok tt)
                   | (c, r) => (c, r)
                   end).
  { unfold scrape, says_closed in *. simpl.
    destruct (Ping (db e) 0) as [er1|]; [rewrite Hclosed|]; simpl;
      rewrite Hping; reflexivity. }
  rewrite Hrun, (runTasks_app queryTimeout pre [last] _ c1 Hpre).
  simpl. unfold scrapeTask. rewrite Hlast.
  destruct r as [er|]; simpl; split; reflexivity.
Qed.

Lemma scrape_error_gauge_last_witness :
  (scrape "5" ([sessionsA] ++ [sessionsB]) (exporterOn wakingDB) emptyWorld).2 = Ok tt /\
  error_gauge (exporter (scrape "5" ([sessionsA] ++ [sessionsB]) (exporterOn wakingDB)
                           emptyWorld).1)
  = match @None error with Some _ => 1 | None => 0 end.
Proof.
  apply (scrape_error_gauge_last "5" [sessionsA] sessionsB (exporterOn wakingDB) emptyWorld
           (scrapeTask "5" sessionsA
              (mkCycle _ (set_up 1 (set_db (pinged (pinged (db (exporterOn wakingDB))))
                                      (inc_totalScrapes (exporterOn wakingDB))))
                 emptyWorld None)).1
           (ScrapeMetric "5" wakingDB sessionsB
              (checkDefinition sessionsB
                 (world (scrapeTask "5" sessionsA
                    (mkCycle _ (set_up 1 (set_db (pinged (pinged (db (exporterOn wakingDB))))
                                            (inc_totalScrapes (exporterOn wakingDB))))
                       emptyWorld None)).1))).1
           None); reflexivity.
Defined.

(** X17. A closed handle is replaced: when the first ping says that the
    database is closed and [sql.Open] gives a handle, the exporter holds
    the new handle from then on, and the second ping, the first of the new
    handle, decides alone. The old handle is not pinged again and runs no
    query; its error is neither logged nor shown by the error gauge. *)
Theorem scrape_reconnects `{Driver} (queryTimeout : string) (sched : list Metric)
    (e : Exporter) (w : World) (d : DB) :
  says_closed (Ping (db e) 0) = true ->
  sql_Open (dsn e) = inl d ->
  scrape queryTimeout sched e w
  = match Ping d 0 with
    | Some er =>
        (mkCycle _
           (mkExporter _ (dsn e) (pinged d) 0 1 (S (totalScrapes e)) (scrapeErrors e))
           (log_Errorln (ErrPinging er) w) (Some er),
         Ok tt)
    | None =>
        match runTasks queryTimeout sched
                (mkCycle _
                   (mkExporter _ (dsn e) (pinged d) 1 (error_gauge e) (S (totalScrapes e))
                      (scrapeErrors e)) w None) with
        | (c, Ok _) => (scrape_deferred c, Ok tt)
        | (c, r) => (c, r)
        end
    end.
Proof.
  intros Hclosed Hopen. unfold scrape, connect, says_closed in *. simpl.
  destruct (Ping (db e) 0) as [er1|]; [|discriminate].
  rewrite Hclosed, Hopen. simpl.
  destruct (Ping d 0) as [er|]; reflexivity.
Qed.

Lemma scrape_reconnects_witness :
  scrape "5" [sessionsA; sessionsB] (exporterOn closedDB) emptyWorld
  = match Ping downDB 0 with
    | Some er =>
        (mkCycle _
           (mkExporter _ (dsn (exporterOn closedDB)) (pinged downDB) 0 1
              (S (totalScrapes (exporterOn closedDB))) (scrapeErrors (exporterOn closedDB)))
           (log_Errorln (ErrPinging er) emptyWorld) (Some er),
         Ok tt)
    | None =>
        match runTasks "5" [sessionsA; sessionsB]
                (mkCycle _
                   (mkExporter _ (dsn (exporterOn closedDB)) (pinged downDB) 1
                      (error_gauge (exporterOn closedDB))
                      (S (totalScrapes (exporterOn closedDB)))
                      (scrapeErrors (exporterOn closedDB))) emptyWorld None) with
        | (c, Ok _) => (scrape_deferred c, Ok tt)
        | (c, r) => (c, r)
        end
    end.
Proof.
  apply (scrape_reconnects "5" [sessionsA; sessionsB] (exporterOn closedDB) emptyWorld
           downDB); reflexivity.
Defined.

(** X18. When the handle is closed and [sql.Open] fails, [connect] panics
    inside [scrape]: the scrape is counted, the failure to connect is
    logged, the deferred function sets the error gauge to 1, and the gauge
    [up] keeps the value of the scrape before; no definition is run. *)
Theorem scrape_reconnect_fails `{Driver} (queryTimeout : string) (sched : list Metric)
    (e : Exporter) (w : World) (er p : error) :
  Ping (db e) 0 = Some er ->
  Contains (Error er) "sql: database is closed" = true ->
  sql_Open (dsn e) = inr p ->
  scrape queryTimeout sched e w
  = (mkCycle _
       (mkExporter _ (dsn e) (pinged (db e)) (up e) 1 (S (totalScrapes e)) (scrapeErrors e))
       (log_Errorln (ErrConnecting (dsn e)) w) (Some er),
     Panic p).
Proof.
  intros Hping Hclosed Hopen. unfold scrape, connect. simpl.
  rewrite Hping, Hclosed, Hopen. reflexivity.
Qed.

Lemma scrape_reconnect_fails_witness :
  @scrape testPlatform brokenDriver "5" [sessionsA; sessionsB] (exporterOn closedDB) emptyWorld
  = (mkCycle _
       (mkExporter _ (dsn (exporterOn closedDB)) (pinged (db (exporterOn closedDB)))
          (up (exporterOn closedDB)) 1 (S (totalScrapes (exporterOn closedDB)))
          (scrapeErrors (exporterOn closedDB)))
       (log_Errorln (ErrConnecting (dsn (exporterOn closedDB))) emptyWorld)
       (Some (lib_error "database/sql" "sql: database is closed")),
     Panic (lib_error "database/sql" "sql: unknown driver dm")).
Proof.
  apply (@scrape_reconnect_fails testPlatform brokenDriver "5" [sessionsA; sessionsB]
           (exporterOn closedDB) emptyWorld
           (lib_error "database/sql" "sql: database is closed")
           (lib_error "database/sql" "sql: unknown driver dm")); reflexivity.
Defined.

(** X19. The option [query.timeout] is converted when the first query is
    about to run, not when the program starts: with a value [strconv.Atoi]
    refuses, the goroutine of the first definition ends the process, after
    the scrape has been counted and [up] set to 1, and before any query is
    run or any metric sent. *)
Theorem scrape_bad_timeout `{Driver} (queryTimeout : string) (metric : Metric)
    (rest : list Metric) (e : Exporter) (w : World) :
  Atoi queryTimeout = None ->
  says_closed (Ping (db e) 0) = false ->
  Ping (db e) 1 = None ->
  scrape queryTimeout (metric :: rest) e w
  = (mkCycle _ (set_up 1 (set_db (pinged (pinged (db e))) (inc_totalScrapes e)))
       (checkDefinition metric w) None, Fatal).
Proof.
  intros Htimeout Hclosed Hping. unfold scrape, says_closed in *. simpl.
  destruct (Ping (db e) 0) as [er1|]; [rewrite Hclosed|]; simpl; rewrite Hping;
    unfold scrapeTask, ScrapeMetric, ScrapeGenericValues, GeneratePrometheusMetrics; simpl;
    rewrite Htimeout; reflexivity.
Qed.

Lemma scrape_bad_timeout_witness :
  scrape "5s" (sessionsA :: [sessionsB]) (exporterOn (testDB twoRows)) emptyWorld
  = (mkCycle _ (set_up 1 (set_db (pinged (pinged (db (exporterOn (testDB twoRows)))))
                            (inc_totalScrapes (exporterOn (testDB twoRows)))))
       (checkDefinition sessionsA emptyWorld) None, Fatal).
Proof.
  apply (scrape_bad_timeout "5s" sessionsA [sessionsB] (exporterOn (testDB twoRows))
           emptyWorld); reflexivity.
Defined.

(** ** [Collect] and [Describe] *)

(** X20. When the scrape returns, [Collect] sends the exporter's own
    metrics in the order duration, scrape counter, error gauge, error
    counters, [up]. The scrape counter already counts this scrape; the two
    gauges hold 0 or 1; and when [up] is 0 the error gauge is 1 and the
    scrape has sent nothing. *)
Theorem Collect_health `{Driver} (queryTimeout : string) (sched : list Metric)
    (e : Exporter) (w : World) :
  (Collect queryTimeout sched e w).2 = Ok tt ->
  exists g u : Z,
    (Collect queryTimeout sched e w).1.2
    = [DurationGauge; TotalScrapesCounter (S (totalScrapes e)); ErrorGauge g]
      ++ ((fun kv => ScrapeErrorsCounter kv.1 kv.2)
            <$> map_to_list (scrapeErrors (exporter (Collect queryTimeout sched e w).1.1)))
      ++ [UpGauge u] /\
    (g = 0 \/ g = 1) /\ (u = 0 \/ u = 1) /\
    (u = 0 -> g = 1 /\ ch (world (Collect queryTimeout sched e w).1.1) = ch w).
Proof.
  unfold Collect.
  destruct (scrape_cases queryTimeout sched e w)
    as [(er & d & ->)|[(er & p & ->)|(d & ->)]]; simpl.
  - intros _. exists 1, 0. unfold healthMetrics. simpl. repeat split; auto.
  - discriminate.
  - destruct (runTasks_frame queryTimeout sched
                (mkCycle _ (mkExporter _ (dsn e) d 1 (error_gauge e) (S (totalScrapes e))
                              (scrapeErrors e)) w None))
      as (_ & _ & Hup & _ & Htot & _).
    destruct (runTasks queryTimeout sched _) as [c r]. simpl in *.
    destruct r as [u|p|]; simpl; try discriminate.
    intros _. exists (match err c with None => 0 | Some _ => 1 end), 1.
    unfold healthMetrics. simpl. rewrite Htot, Hup.
    repeat split; auto; try lia.
    destruct (err c); auto.
Qed.

Lemma Collect_health_witness :
  exists g u : Z,
    (Collect "5" [sessionsA; sessionsB] (exporterOn mixedDB) emptyWorld).1.2
    = [DurationGauge; TotalScrapesCounter (S (totalScrapes (exporterOn mixedDB))); ErrorGauge g]
      ++ ((fun kv => ScrapeErrorsCounter kv.1 kv.2)
            <$> map_to_list
                  (scrapeErrors
                     (exporter (Collect "5" [sessionsA; sessionsB] (exporterOn mixedDB)
                                  emptyWorld).1.1)))
      ++ [UpGauge u] /\
    (g = 0 \/ g = 1) /\ (u = 0 \/ u = 1) /\
    (u = 0 ->
     g = 1 /\
     ch (world (Collect "5" [sessionsA; sessionsB] (exporterOn mixedDB) emptyWorld).1.1)
     = ch emptyWorld).
Proof.
  apply (Collect_health "5" [sessionsA; sessionsB] (exporterOn mixedDB) emptyWorld).
  reflexivity.
Defined.

(** X21. [Describe] is a scrape: it runs [Collect] on a channel of its own,
    so it leaves the exporter as a scrape leaves it, the scrape counter
    raised by one, and it ends as that scrape ends. *)
Theorem Describe_scrapes `{Driver} (queryTimeout : string) (sched : list Metric)
    (e : Exporter) (w : World) :
  (Describe queryTimeout sched e w).1.1
  = (scrape queryTimeout sched e (mkWorld _ [] (logs w) (rng w))).1 /\
  (Describe queryTimeout sched e w).2
  = (scrape queryTimeout sched e (mkWorld _ [] (logs w) (rng w))).2 /\
  totalScrapes (exporter (Describe queryTimeout sched e w).1.1) = S (totalScrapes e).
Proof.
  assert (Hrun :
    (Describe queryTimeout sched e w).1.1
    = (scrape queryTimeout sched e (mkWorld _ [] (logs w) (rng w))).1 /\
    (Describe queryTimeout sched e w).2
    = (scrape queryTimeout sched e (mkWorld _ [] (logs w) (rng w))).2).
  { unfold Describe, Collect.
    destruct (scrape queryTimeout sched e (mkWorld _ [] (logs w) (rng w))) as [c r].
    destruct r as [[]|p|]; simpl; split; reflexivity. }
  destruct Hrun as [Hc Hr]. split; [exact Hc|]. split; [exact Hr|].
  rewrite Hc.
  destruct (scrape_cases queryTimeout sched e (mkWorld _ [] (logs w) (rng w)))
    as [(er & d & ->)|[(er & p & ->)|(d & ->)]]; simpl; try reflexivity.
  destruct (runTasks_frame queryTimeout sched
              (mkCycle _ (mkExporter _ (dsn e) d 1 (error_gauge e) (S (totalScrapes e))
                            (scrapeErrors e)) (mkWorld _ [] (logs w) (rng w)) None))
    as (_ & _ & _ & _ & Htot & _).
  destruct (runTasks queryTimeout sched _) as [c r]. simpl in *.
  destruct r as [u|p|]; simpl; exact Htot.
Qed.

(** X22. The descriptors [Describe] forwards are those of the metrics one
    scrape happens to send. When the second ping of that scrape fails,
    the first not saying that the database is closed, they are the
    exporter's own only: no definition is described. *)
Theorem Describe_database_down `{Driver} (queryTimeout : string) (sched : list Metric)
    (e : Exporter) (w : World) (er : error) :
  says_closed (Ping (db e) 0) = false ->
  Ping (db e) 1 = Some er ->
  (Describe queryTimeout sched e w).1.2
  = healthDesc <$>
      ([DurationGauge; TotalScrapesCounter (S (totalScrapes e)); ErrorGauge 1]
       ++ ((fun kv => ScrapeErrorsCounter kv.1 kv.2) <$> map_to_list (scrapeErrors e))
       ++ [UpGauge 0]).
Proof.
  intros Hclosed Hping. unfold Describe, Collect, scrape, says_closed in *. simpl.
  destruct (Ping (db e) 0) as [er1|]; [rewrite Hclosed|]; simpl;
    rewrite Hping; reflexivity.
Qed.

Lemma Describe_database_down_witness :
  (Describe "5" [sessionsA; sessionsB] (exporterOn downDB) emptyWorld).1.2
  = healthDesc <$>
      ([DurationGauge; TotalScrapesCounter (S (totalScrapes (exporterOn downDB)));
        ErrorGauge 1]
       ++ ((fun kv => ScrapeErrorsCounter kv.1 kv.2)
             <$> map_to_list (scrapeErrors (exporterOn downDB)))
       ++ [UpGauge 0]).
Proof.
  apply (Describe_database_down "5" [sessionsA; sessionsB] (exporterOn downDB) emptyWorld
           (lib_error "dm" "connection refused")); reflexivity.
Defined.

(** ** A kind that is no kind *)

Lemma parseColumns_bad_kind `{Platform} (context : string) (labels : list string)
    (metricsType : gmap string string) (fieldToAppend : string)
    (row : gmap string string) (e0 : error) (kvs : list (string * string)) :
  forall st,
    (exists kv value,
       kv ∈ kvs /\ ParseFloat (TrimSpace (row_get row kv.1)) = Some value /\
       GetMetricType kv.1 metricsType = Panic e0) ->
    exists st' e,
      parseColumns context labels metricsType fieldToAppend row kvs st = (st', Panic e).
Proof.
  induction kvs as [|[metric metricHelp] kvs IH]; intros st (kv & value & Hin & Hparse & Hkind).
  - apply elem_of_nil in Hin. contradiction.
  - simpl. apply elem_of_cons in Hin.
    destruct (ParseFloat (TrimSpace (row_get row metric))) as [v|] eqn:Hhead.
    + destruct (metricDesc context labels fieldToAppend row metric metricHelp) as [d lvs].
      destruct (GetMetricType metric metricsType) as [valueType|e|] eqn:Hk.
      * unfold MustNewConstMetric.
        destruct (NewConstMetric_err (fqName d) (help d) (variableLabels d) lvs) as [e|];
          [eauto|].
        apply IH. exists kv, value. repeat split; try assumption.
        destruct Hin as [->|Hin]; [|exact Hin]. simpl in Hkind. congruence.
      * eauto.
      * unfold GetMetricType in Hk.
        destruct (metricsType !! ToLower metric) as [strType|]; [|discriminate].
        destruct (strToPromType !! ToLower strType); discriminate.
    + apply IH. exists kv, value. repeat split; try assumption.
      destruct Hin as [->|Hin]; [|exact Hin]. simpl in Hparse. congruence.
Qed.

(** X23. One column is enough to stop the program: a row in which a value
    column parses whose kind token is neither gauge nor counter makes the
    row handler panic, in whatever order the columns are visited and
    whatever the other columns hold. *)
Theorem genericParser_bad_kind_panics `{Platform} (context : string) (labels : list string)
    (metricsDesc metricsType : gmap string string) (fieldToAppend : string)
    (row : gmap string string) (st : World * Z)
    (metric metricHelp strType : string) (value : float64) :
  metricsDesc !! metric = Some metricHelp ->
  ParseFloat (TrimSpace (row_get row metric)) = Some value ->
  metricsType !! ToLower metric = Some strType ->
  ToLower strType <> "gauge" -> ToLower strType <> "counter" ->
  exists st' e,
    genericParser context labels metricsDesc metricsType fieldToAppend row st
    = (st', Panic e).
Proof.
  intros Hdesc Hparse Htype Hg Hc. unfold genericParser.
  apply (parseColumns_bad_kind context labels metricsType fieldToAppend row
           (errors_New ("Error while getting prometheus type " +:+ ToLower strType))).
  exists (metric, metricHelp), value. simpl. split; [|split].
  - rewrite (range_map_perm (rng st.1) metricsDesc). apply elem_of_map_to_list. exact Hdesc.
  - exact Hparse.
  - unfold GetMetricType. rewrite Htype, (strToPromType_other _ Hg Hc). reflexivity.
Qed.

Lemma genericParser_bad_kind_panics_witness :
  exists st' e,
    genericParser "sessions" ["id"] {[ "value" := "help"; "total" := "help" ]}
      {[ "total" := "summary" ]} "" {[ "id" := "a"; "value" := "7"; "total" := "9" ]}
      (emptyWorld, 0)
    = (st', Panic e).
Proof.
  apply (genericParser_bad_kind_panics "sessions" ["id"]
           {[ "value" := "help"; "total" := "help" ]} {[ "total" := "summary" ]} ""
           {[ "id" := "a"; "value" := "7"; "total" := "9" ]} (emptyWorld, 0)
           "total" "help" "summary" 9); try reflexivity; discriminate.
Defined.

(** ** More on the probe target resolver *)

Lemma Split_app_sep (sep : ascii) (h t : string) :
  sep ∉ list_ascii_of_string h ->
  Split (h +:+ String sep t) sep = h :: Split t sep.
Proof.
  induction h as [|c h IH]; simpl; intros Hnotin.
  - rewrite Ascii.eqb_refl. reflexivity.
  - apply not_elem_of_cons in Hnotin as [Hne Hnotin].
    destruct (Ascii.eqb c sep) eqn:Heq.
    + apply Ascii.eqb_eq in Heq. congruence.
    + rewrite (IH Hnotin). reflexivity.
Qed.

Lemma Split_no_sep (sep : ascii) (h : string) :
  sep ∉ list_ascii_of_string h -> Split h sep = [h].
Proof.
  induction h as [|c h IH]; simpl; intros Hnotin.
  - reflexivity.
  - apply not_elem_of_cons in Hnotin as [Hne Hnotin].
    destruct (Ascii.eqb c sep) eqn:Heq.
    + apply Ascii.eqb_eq in Heq. congruence.
    + rewrite (IH Hnotin). reflexivity.
Qed.

Lemma append_sep_nonempty (h : string) (c : ascii) (t : string) :
  h +:+ String c t <> "".
Proof. destruct h; discriminate. Qed.

Section ResolverMore.
Context `{ini.Numbers}.

(** Two targets that split into the same host and port resolve alike. *)
Lemma formExporterDSN_same_target (t1 t2 module : string) (cfg : ini.File) :
  (if decide (t1 = "") then inl ("", 0)
   else match Split t1 ":" !! 1%nat with
        | Some p => match ParseUint p with
                    | None => inr (errors_New ("invalid port " +:+ p))
                    | Some port => inl (default "" (Split t1 ":" !! 0%nat), port)
                    end
        | None => inl (default "" (Split t1 ":" !! 0%nat), 0)
        end)
  = (if decide (t2 = "") then inl ("", 0)
     else match Split t2 ":" !! 1%nat with
          | Some p => match ParseUint p with
                      | None => inr (errors_New ("invalid port " +:+ p))
                      | Some port => inl (default "" (Split t2 ":" !! 0%nat), port)
                      end
          | None => inl (default "" (Split t2 ":" !! 0%nat), 0)
          end) ->
  formExporterDSN t1 module cfg = formExporterDSN t2 module cfg.
Proof.
  intros Heq. unfold formExporterDSN. cbv zeta in *. rewrite Heq. reflexivity.
Qed.

(** X24. [formExporterDSN] returns either an error with an empty
    connection string, or no error with a connection string of the form
    dm://user:password@host:port?autoCommit=true whose user, password and
    host are not empty. *)
Theorem formExporterDSN_outcome (target module : string) (cfg : ini.File) :
  (exists e, formExporterDSN target module cfg = ("", Some e)) \/
  (exists user password host port,
     user <> "" /\ password <> "" /\ host <> "" /\
     formExporterDSN target module cfg
     = ("dm://" +:+ user +:+ ":" +:+ password +:+ "@" +:+ host +:+ ":"
          +:+ FormatInt port +:+ "?autoCommit=true", None)).
Proof.
  unfold formExporterDSN. cbv zeta.
  destruct (if decide (target = "") then _ else _) as [[host port]|e]; [|left; eauto].
  destruct (ini.GetSection cfg _) as [client|]; [|left; eauto].
  destruct (decide (ini.Key_String cfg client "user" = ""
                    \/ ini.Key_String cfg client "password" = "")) as [|Hcreds];
    [left; eauto|].
  right. do 4 eexists. split; [|split; [|split; [|reflexivity]]].
  - intros Hu. apply Hcreds. left. exact Hu.
  - intros Hp. apply Hcreds. right. exact Hp.
  - destruct (decide (host = "")) as [_|Hne]; [|exact Hne].
    unfold ini.MustString. destruct (decide (_ = "")) as [_|Hne]; [discriminate|exact Hne].
Qed.

(** X25. A port 0 in the target counts as no port: the target [host:0]
    resolves as the target [host] does, to the port of the configuration. *)
Theorem formExporterDSN_port_zero (host module : string) (cfg : ini.File) :
  ":"%char ∉ list_ascii_of_string host ->
  formExporterDSN (host +:+ ":0") module cfg = formExporterDSN host module cfg.
Proof.
  intros Hhost. apply formExporterDSN_same_target.
  destruct (decide (host +:+ ":0" = "")) as [Hempty|_];
    [exfalso; exact (append_sep_nonempty _ _ _ Hempty)|].
  rewrite (Split_app_sep ":" host "0" Hhost). simpl.
  destruct (decide (host = "")) as [->|_]; [reflexivity|].
  rewrite (Split_no_sep ":" host Hhost). reflexivity.
Qed.

(** X26. Of a target only the first two fields between colons count:
    whatever follows a second colon is dropped without an error. *)
Theorem formExporterDSN_extra_fields (host port junk module : string) (cfg : ini.File) :
  ":"%char ∉ list_ascii_of_string host ->
  ":"%char ∉ list_ascii_of_string port ->
  formExporterDSN (host +:+ ":" +:+ port +:+ ":" +:+ junk) module cfg
  = formExporterDSN (host +:+ ":" +:+ port) module cfg.
Proof.
  intros Hhost Hport. apply formExporterDSN_same_target.
  destruct (decide (host +:+ ":" +:+ port +:+ ":" +:+ junk = "")) as [Hempty|_];
    [exfalso; exact (append_sep_nonempty _ _ _ Hempty)|].
  destruct (decide (host +:+ ":" +:+ port = "")) as [Hempty|_];
    [exfalso; exact (append_sep_nonempty _ _ _ Hempty)|].
  change (host +:+ ":" +:+ port +:+ ":" +:+ junk)
    with (host +:+ String ":" (port +:+ String ":" junk)).
  change (host +:+ ":" +:+ port) with (host +:+ String ":" port).
  rewrite !(Split_app_sep ":" host _ Hhost), (Split_app_sep ":" port _ Hport),
    (Split_no_sep ":" port Hport).
  reflexivity.
Qed.

End ResolverMore.

Lemma formExporterDSN_port_zero_witness :
  formExporterDSN ("db1" +:+ ":0") "" {[ "client" := {[ "user" := "u"; "password" := "p";
                                                         "port" := "5236" ]} ]}
  = formExporterDSN "db1" "" {[ "client" := {[ "user" := "u"; "password" := "p";
                                                "port" := "5236" ]} ]}.
Proof.
  apply (formExporterDSN_port_zero "db1" ""
           {[ "client" := {[ "user" := "u"; "password" := "p"; "port" := "5236" ]} ]}).
  intros Hin. repeat (apply elem_of_cons in Hin as [Hin|Hin]; [discriminate|]).
  apply elem_of_nil in Hin. exact Hin.
Defined.

Lemma formExporterDSN_extra_fields_witness :
  formExporterDSN ("db1" +:+ ":" +:+ "5236" +:+ ":" +:+ "x/y") ""
    {[ "client" := {[ "user" := "u"; "password" := "p" ]} ]}
  = formExporterDSN ("db1" +:+ ":" +:+ "5236") ""
      {[ "client" := {[ "user" := "u"; "password" := "p" ]} ]}.
Proof.
  apply (formExporterDSN_extra_fields "db1" "5236" "x/y" ""
           {[ "client" := {[ "user" := "u"; "password" := "p" ]} ]}).
  - intros Hin. repeat (apply elem_of_cons in Hin as [Hin|Hin]; [discriminate|]).
    apply elem_of_nil in Hin. exact Hin.
  - intros Hin. repeat (apply elem_of_cons in Hin as [Hin|Hin]; [discriminate|]).
    apply elem_of_nil in Hin. exact Hin.
Defined.




